(** * The WBCHSE result worker: a shallow embedding

    The repository is one Cloudflare Pages function,
    [functions/api/[[catchall]].js].  It answers [POST /api/details] and
    [POST /api/full-result] by validating the JSON body, resolving a referral
    key to a payment button id, checking a payment store and fetching the
    board result.

    The development is layered:
    - [Js]: the JavaScript values the worker handles (parsed JSON, [undefined]
      and the built-ins reachable through [Object.prototype]) with the
      coercions the source relies on (truthiness, [ToString], [+], [===],
      property access, method calls that raise [TypeError]);
    - [Web]: [fetch], [Response] and a small monad that threads the list of
      downstream calls and the pending exception;
    - [Worker]: the handlers, definition by definition;
    - [Spec]: the predicates the specification speaks in;
    - [Examples]: concrete requests and service answers;
    - the properties, claim by claim. *)

From Stdlib Require Import String Ascii List ZArith Bool Lia DecimalString.
Import ListNotations.
Local Open Scope string_scope.
Local Open Scope Z_scope.
Set Warnings "-register-all".

(* ================================================================== *)
(** ** JavaScript values and coercions *)
(* ================================================================== *)

Module Js.

(** What [JSON.parse] (and so [request.json()], [response.json()]) returns.
    Numbers are the integer-valued ones (the arithmetic the worker can reach
    on them, a six-digit plus a four-digit number, is exact); strings are
    sequences of 8-bit characters read as ASCII; an object is the list of its
    own properties, the first entry of a key being the property. *)
Inductive json : Type :=
| JNull
| JBool (b : bool)
| JNum (n : Z)
| JStr (s : string)
| JArr (items : list json)
| JObj (props : list (string * json)).

(** Run-time values: parsed data, [undefined], and what a lookup that reaches
    [Object.prototype] can return (a built-in function, or the prototype
    object itself through the [__proto__] accessor). *)
Inductive value : Type :=
| Undefined
| J (j : json)
| Builtin (name : string)
| ObjectPrototype.

Inductive exn : Type :=
| TypeError (message : string)
| RangeError (message : string)
| SyntaxError (message : string).

(** Every exception the runtime raises is an [Error] instance. *)
Definition instanceof_Error (e : exn) : bool := true.

Definition message (e : exn) : string :=
  match e with
  | TypeError m | RangeError m | SyntaxError m => m
  end.

(** A computation that either completes or throws. *)
Inductive result (A : Type) : Type :=
| Ok (a : A)
| Throw (e : exn).
Arguments Ok {A} a.
Arguments Throw {A} e.

Definition rbind {A B} (r : result A) (k : A -> result B) : result B :=
  match r with
  | Ok a => k a
  | Throw e => Throw e
  end.

Declare Scope js_scope.
Delimit Scope js_scope with js.
Notation "'let*' x ':=' r 'in' k" := (rbind r (fun x => k))
  (at level 10, x name, r at level 100, k at level 200) : js_scope.

(** [a || b] and [a && b] in a boolean context: [b] is evaluated, and may
    throw, only when [a] does not decide. *)
Definition or_else (a b : result bool) : result bool :=
  rbind a (fun x => if x then Ok true else b).
Definition and_then (a b : result bool) : result bool :=
  rbind a (fun x => if x then b else Ok false).
Infix "|||" := or_else (at level 50, left associativity) : js_scope.
Infix "&&&" := and_then (at level 40, left associativity) : js_scope.
Local Open Scope js_scope.

(** *** Strings *)

Definition is_digit (c : ascii) : bool :=
  let n := N_of_ascii c in (48 <=? n)%N && (n <=? 57)%N.

(** [/^\d{k}$/.test(s)] on a string: exactly [k] characters, all digits
    (no [m] flag, so [$] is the end of the input). *)
Definition digits_only (k : nat) (s : string) : bool :=
  Nat.eqb (String.length s) k && forallb is_digit (list_ascii_of_string s).

(** White space and line terminators, as [String.prototype.trim] strips them. *)
Definition is_space (c : ascii) : bool :=
  let n := N_of_ascii c in
  ((9 <=? n)%N && (n <=? 13)%N) || (n =? 32)%N.

Fixpoint trim_start (s : string) : string :=
  match s with
  | String c rest => if is_space c then trim_start rest else s
  | EmptyString => EmptyString
  end.

Fixpoint trim_end (s : string) : string :=
  match s with
  | String c rest =>
      match trim_end rest with
      | EmptyString => if is_space c then EmptyString else String c EmptyString
      | rest' => String c rest'
      end
  | EmptyString => EmptyString
  end.

Definition trim (s : string) : string := trim_end (trim_start s).

Definition lower_char (c : ascii) : ascii :=
  let n := N_of_ascii c in
  if (65 <=? n)%N && (n <=? 90)%N then ascii_of_N (n + 32) else c.

Fixpoint lower (s : string) : string :=
  match s with
  | String c rest => String (lower_char c) (lower rest)
  | EmptyString => EmptyString
  end.

(** [Number.prototype.toString] on an integer. *)
Definition Number_toString (n : Z) : string :=
  NilZero.string_of_int (Z.to_int n).

(** *** Property access *)

Fixpoint own_property {A : Type} (k : string) (props : list (string * A)) : option A :=
  match props with
  | [] => None
  | (k', v) :: rest => if String.eqb k k' then Some v else own_property k rest
  end.

(** The properties every ordinary object inherits. *)
Definition Object_prototype (k : string) : option value :=
  if String.eqb k "__proto__" then Some ObjectPrototype
  else if String.eqb k "constructor" then Some (Builtin "Object")
  else if existsb (String.eqb k)
            ["__defineGetter__"; "__defineSetter__"; "__lookupGetter__";
             "__lookupSetter__"; "hasOwnProperty"; "isPrototypeOf";
             "propertyIsEnumerable"; "toLocaleString"; "toString"; "valueOf"]
       then Some (Builtin k)
  else None.

(** [o[k]] on an object given by its own properties. *)
Definition lookup (props : list (string * json)) (k : string) : value :=
  match own_property k props with
  | Some j => J j
  | None =>
      match Object_prototype k with
      | Some v => v
      | None => Undefined
      end
  end.

(** [v.k] for the property names the worker reads from parsed data ([roll],
    [no], [registration], [referralKey], [identifier], [payment_id], [email],
    [phone], [message], [name], [ROll_No], [Reg_No]).  None of them is an
    index, [length], or a member of [String.prototype], [Number.prototype],
    [Boolean.prototype] or [Array.prototype], so on a primitive or an array
    the access yields [undefined]; on [null] and [undefined] it throws. *)
Definition get (v : value) (k : string) : result value :=
  match v with
  | Undefined => Throw (TypeError ("Cannot read properties of undefined (reading '" ++ k ++ "')"))
  | J JNull => Throw (TypeError ("Cannot read properties of null (reading '" ++ k ++ "')"))
  | J (JObj props) => Ok (lookup props k)
  | _ => Ok Undefined
  end.

(** *** Coercions *)

Definition truthy (v : value) : bool :=
  match v with
  | Undefined => false
  | J JNull => false
  | J (JBool b) => b
  | J (JNum n) => negb (n =? 0)
  | J (JStr s) => negb (String.eqb s "")
  | J (JArr _) | J (JObj _) => true
  | Builtin _ | ObjectPrototype => true
  end.

Definition typeof (v : value) : string :=
  match v with
  | Undefined => "undefined"
  | J JNull => "object"
  | J (JBool _) => "boolean"
  | J (JNum _) => "number"
  | J (JStr _) => "string"
  | J (JArr _) | J (JObj _) => "object"
  | Builtin _ => "function"
  | ObjectPrototype => "object"
  end.

Definition cannot_convert : exn :=
  TypeError "Cannot convert object to primitive value".

(** [ToString] on parsed data.  An array joins its elements with commas,
    [null] elements giving the empty string.  An object goes through
    [toString] then [valueOf]: data never holds a callable, so an own
    [toString] property leaves only [valueOf], which is either an own
    non-callable property or the inherited one that returns the object itself,
    and the conversion throws; without it the inherited [toString] answers
    ["[object Object]"]. *)
Fixpoint ToString_json (j : json) : result string :=
  match j with
  | JNull => Ok "null"
  | JBool true => Ok "true"
  | JBool false => Ok "false"
  | JNum n => Ok (Number_toString n)
  | JStr s => Ok s
  | JArr items =>
      (fix join (l : list json) : result string :=
         match l with
         | [] => Ok ""
         | x :: rest =>
             let* sx := match x with JNull => Ok "" | _ => ToString_json x end in
             match rest with
             | [] => Ok sx
             | _ => let* sr := join rest in Ok (sx ++ "," ++ sr)
             end
         end) items
  | JObj props =>
      match own_property "toString" props with
      | Some _ => Throw cannot_convert
      | None => Ok "[object Object]"
      end
  end.

Definition ToString (v : value) : result string :=
  match v with
  | Undefined => Ok "undefined"
  | J j => ToString_json j
  | Builtin name => Ok ("function " ++ name ++ "() { [native code] }")
  | ObjectPrototype => Ok "[object Object]"
  end.

(** [re.test(v)] for [re = /^\d{k}$/]: the argument is converted first. *)
Definition digits_test (k : nat) (v : value) : result bool :=
  let* s := ToString v in Ok (digits_only k s).

(** [ToPrimitive] with the default hint, as [+] applies it.  On parsed data
    it agrees with [ToString] for arrays and objects (the inherited [valueOf]
    returns the object, so [toString] decides). *)
Inductive primitive : Type :=
| PUndefined
| PNull
| PBool (b : bool)
| PNum (n : Z)
| PStr (s : string).

Definition ToPrimitive (v : value) : result primitive :=
  match v with
  | Undefined => Ok PUndefined
  | J JNull => Ok PNull
  | J (JBool b) => Ok (PBool b)
  | J (JNum n) => Ok (PNum n)
  | J (JStr s) => Ok (PStr s)
  | _ => let* s := ToString v in Ok (PStr s)
  end.

Definition primitive_to_string (p : primitive) : string :=
  match p with
  | PUndefined => "undefined"
  | PNull => "null"
  | PBool true => "true"
  | PBool false => "false"
  | PNum n => Number_toString n
  | PStr s => s
  end.

(** [ToNumber] on a non-string primitive; [None] is [NaN]. *)
Definition primitive_to_number (p : primitive) : option Z :=
  match p with
  | PUndefined => None
  | PNull => Some 0
  | PBool true => Some 1
  | PBool false => Some 0
  | PNum n => Some n
  | PStr _ => None
  end.

Definition is_string (p : primitive) : bool :=
  match p with PStr _ => true | _ => false end.

(** [a + b], already converted by the template literal that uses it: string
    concatenation as soon as one operand is a string, numeric addition
    otherwise. *)
Definition add (a b : value) : result string :=
  let* pa := ToPrimitive a in
  let* pb := ToPrimitive b in
  if is_string pa || is_string pb
  then Ok (primitive_to_string pa ++ primitive_to_string pb)
  else match primitive_to_number pa, primitive_to_number pb with
       | Some x, Some y => Ok (Number_toString (x + y))
       | _, _ => Ok "NaN"
       end.

(** [a === b] where [a] and [b] are primitives or come from two different
    [JSON.parse] results: objects and arrays are then never the same
    reference. *)
Definition strict_equals (a b : value) : bool :=
  match a, b with
  | Undefined, Undefined => true
  | J JNull, J JNull => true
  | J (JBool x), J (JBool y) => Bool.eqb x y
  | J (JNum x), J (JNum y) => x =? y
  | J (JStr x), J (JStr y) => String.eqb x y
  | Builtin x, Builtin y => String.eqb x y
  | ObjectPrototype, ObjectPrototype => true
  | _, _ => false
  end.

(** [v.toLowerCase()]: only a string has the method. *)
Definition toLowerCase (v : value) : result string :=
  match v with
  | J (JStr s) => Ok (lower s)
  | Undefined | J JNull => Throw (TypeError "Cannot read properties of undefined (reading 'toLowerCase')")
  | _ => Throw (TypeError "toLowerCase is not a function")
  end.

(** [v.trim()] likewise. *)
Definition String_trim (v : value) : result string :=
  match v with
  | J (JStr s) => Ok (trim s)
  | Undefined | J JNull => Throw (TypeError "Cannot read properties of undefined (reading 'trim')")
  | _ => Throw (TypeError "trim is not a function")
  end.

(** [JSON.stringify] of an object literal whose property values are
    [value]s: properties holding [undefined] or a function are left out,
    parsed data is written back as it is, and [Object.prototype] has no
    enumerable own property. *)
Definition JSON_stringify (props : list (string * value)) : json :=
  JObj ((fix go (l : list (string * value)) : list (string * json) :=
           match l with
           | [] => []
           | (k, Undefined) :: rest => go rest
           | (k, Builtin _) :: rest => go rest
           | (k, J j) :: rest => (k, j) :: go rest
           | (k, ObjectPrototype) :: rest => (k, JObj []) :: go rest
           end) props).

End Js.

(* ================================================================== *)
(** ** The platform: responses, [fetch], and the effect monad *)
(* ================================================================== *)

Module Web.
Import Js.
Local Open Scope js_scope.

Definition headers : Type := list (string * string).

(** What the worker hands back.  [body] is the JSON document whose text
    [JSON.stringify] produced, [None] for a [null] body. *)
Record Response : Type := mkResponse
  { status : Z;
    response_headers : headers;
    body : option json }.

Definition null_body_status (s : Z) : bool :=
  (s =? 101) || (s =? 103) || (s =? 204) || (s =? 205) || (s =? 304).

(** [new Response(body, { status, headers })].  The constructor (Fetch
    Standard, "initialize a response") throws a [RangeError] for a status
    outside 200..599 and a [TypeError] for a body on a null-body status. *)
Definition new_Response (b : option json) (s : Z) (h : headers) : result Response :=
  if (s <? 200) || (599 <? s)
  then Throw (RangeError "Responses may only be constructed with status codes in the range 200 to 599, inclusive.")
  else match b with
       | Some _ =>
           if null_body_status s
           then Throw (TypeError "Response with null body status (101, 204, 205, or 304) cannot have a body.")
           else Ok (mkResponse s h b)
       | None => Ok (mkResponse s h b)
       end.

(** The incoming request: its method, the path of its URL, and what
    [request.json()] resolves to ([None] when it rejects). *)
Record Request : Type := mkRequest
  { method : string;
    pathname : string;
    request_body : option json }.

(** A response of a downstream service; [up_json] is what [.json()] resolves
    to, [None] when the body is not JSON. *)
Record FetchResponse : Type := mkFetchResponse
  { up_status : Z;
    up_statusText : string;
    up_json : option json }.

Definition ok (r : FetchResponse) : bool :=
  (200 <=? up_status r) && (up_status r <=? 299).

(** The outside world: what each URL answers, [None] for a network failure. *)
Record world : Type := mkWorld
  { answer : string -> option FetchResponse }.

Inductive call : Type :=
| GET (url : string) (h : headers).

Definition trace : Type := list call.

(** Handlers read the world, append to the trace of downstream calls, and
    return or throw. *)
Definition M (A : Type) : Type := world -> trace -> trace * result A.

Definition ret {A} (a : A) : M A := fun _ t => (t, Ok a).

Definition bind {A B} (m : M A) (k : A -> M B) : M B :=
  fun w t =>
    match m w t with
    | (t', Ok a) => k a w t'
    | (t', Throw e) => (t', Throw e)
    end.

Definition lift {A} (r : result A) : M A := fun _ t => (t, r).

(** [try { m } catch (e) { handler e }]. *)
Definition try_catch {A} (m : M A) (handler : exn -> M A) : M A :=
  fun w t =>
    match m w t with
    | (t', Ok a) => (t', Ok a)
    | (t', Throw e) => handler e w t'
    end.

Declare Scope web_scope.
Delimit Scope web_scope with web.
Notation "x <- m ;; k" := (bind m (fun x => k))
  (at level 61, m at next level, right associativity) : web_scope.

(** [await fetch(url, { headers })]. *)
Definition fetch (url : string) (h : headers) : M FetchResponse :=
  fun w t =>
    ((t ++ [GET url h])%list,
     match answer w url with
     | Some r => Ok r
     | None => Throw (TypeError "fetch failed")
     end).

(** [await response.json()]. *)
Definition response_json (r : FetchResponse) : M json :=
  match up_json r with
  | Some j => ret j
  | None => lift (Throw (SyntaxError "Unexpected token in JSON"))
  end.

Definition run {A} (m : M A) (w : world) : trace * result A := m w [].

End Web.

(* ================================================================== *)
(** ** The worker *)
(* ================================================================== *)

Module Worker.
Import Js Web.
Local Open Scope js_scope.
Local Open Scope web_scope.

(** *** Configuration *)

Definition PAYMENT_DB_URL : string := "https://warisha.pw/payments".
Definition BOARD_API_BASE_URL : string := "https://boardresultapi.abplive.com/wb/2025/12".

(** The object literal [referralButtonMap]: its own properties. *)
Definition referralButtonMap : list (string * json) :=
  [ ("subhra", JStr "pl_QRCx74QvShiAil");
    ("koyel", JStr "pl_QMWdxwIPVZYTpi");
    ("anwesha", JStr "pl_QRfw57xno82GiV") ].

Definition defaultRazorpayButtonId : string := "pl_QMXOuva67vyoan".

Definition corsHeaders : headers :=
  [ ("Access-Control-Allow-Origin", "*");
    ("Access-Control-Allow-Methods", "POST, OPTIONS");
    ("Access-Control-Allow-Headers", "Content-Type") ].

(** [{ ...corsHeaders, 'Content-Type': 'application/json' }] *)
Definition jsonHeaders : headers :=
  (corsHeaders ++ [ ("Content-Type", "application/json") ])%list.

(** [new Response(JSON.stringify({ ... }), { status, headers: jsonHeaders })],
    the shape of every response with a body. *)
Definition json_response (s : Z) (payload : list (string * value)) : M Response :=
  lift (new_Response (Some (JSON_stringify payload)) s jsonHeaders).

Definition message_of (text : string) : list (string * value) :=
  [ ("message", J (JStr text)) ].

(** *** [handleDetailsRequest] *)

(** The test of line 79; [true] sends the 400. *)
Definition details_invalid (roll no registration : value) : result bool :=
  Ok (negb (truthy roll))
  ||| Ok (negb (truthy no))
  ||| Ok (negb (truthy registration))
  ||| (let* t := digits_test 6 roll in Ok (negb t))
  ||| (let* t := digits_test 4 no in Ok (negb t))
  ||| Ok (negb (String.eqb (typeof registration) "string"))
  ||| (let* s := String_trim registration in Ok (String.eqb s "")).

(** Lines 83-86: the button id the response carries. *)
Definition paymentButtonIdToUse (referralKey : value) : result value :=
  let* hit :=
    Ok (truthy referralKey)
    &&& (let* k := toLowerCase referralKey in Ok (truthy (lookup referralButtonMap k))) in
  if hit
  then let* k := toLowerCase referralKey in Ok (lookup referralButtonMap k)
  else Ok (J (JStr defaultRazorpayButtonId)).

(** Lines 88-90 and 192-194: [fullRoll = roll + no] and the template
    literal around it. *)
Definition apiUrl (roll no registration : value) : result string :=
  let* fullRoll := add roll no in
  let* reg := String_trim registration in
  Ok (BOARD_API_BASE_URL ++ "/" ++ fullRoll ++ "/" ++ reg).

(** Lines 96-100 and 200-204: the upstream message when there is one. *)
Definition errorText (apiResponse : FetchResponse) : M value :=
  let fallback :=
    J (JStr ("API Error (" ++ Number_toString (up_status apiResponse) ++ "): "
             ++ up_statusText apiResponse)) in
  try_catch
    (errorJson <- response_json apiResponse ;;
     m <- lift (get (J errorJson) "message") ;;
     ret (if truthy m then m else fallback))
    (fun _ => ret fallback).

Definition handleDetailsRequest (request : Request) : M Response :=
  match request_body request with
  | None => json_response 400 (message_of "Invalid JSON body")
  | Some requestData =>
      roll <- lift (get (J requestData) "roll") ;;
      no <- lift (get (J requestData) "no") ;;
      registration <- lift (get (J requestData) "registration") ;;
      referralKey <- lift (get (J requestData) "referralKey") ;;
      invalid <- lift (details_invalid roll no registration) ;;
      if invalid
      then json_response 400
             (message_of "Invalid Roll, No, or Registration Number format. All fields are required.")
      else
        button <- lift (paymentButtonIdToUse referralKey) ;;
        url <- lift (apiUrl roll no registration) ;;
        try_catch
          (apiResponse <- fetch url [] ;;
           if negb (ok apiResponse)
           then
             text <- errorText apiResponse ;;
             json_response (up_status apiResponse) [ ("message", text) ]
           else
             data <- response_json apiResponse ;;
             name <- lift (get (J data) "name") ;;
             rollNo <- lift (get (J data) "ROll_No") ;;
             regNo <- lift (get (J data) "Reg_No") ;;
             json_response 200
               [ ("name", name); ("rollNo", rollNo); ("regNo", regNo);
                 ("paymentButtonId", button) ])
          (fun _ => json_response 502 (message_of "Failed to connect to the results service."))
  end.

(** *** [handleFullResultRequest] *)

(** The test of line 145. *)
Definition full_invalid (identifier roll no registration : value) : result bool :=
  Ok (negb (truthy identifier))
  ||| Ok (negb (truthy roll))
  ||| Ok (negb (truthy no))
  ||| Ok (negb (truthy registration))
  ||| (let* t := digits_test 6 roll in Ok (negb t))
  ||| (let* t := digits_test 4 no in Ok (negb t))
  ||| Ok (negb (String.eqb (typeof registration) "string"))
  ||| (let* s := String_trim registration in Ok (String.eqb s "")).

Definition noCacheHeaders : headers :=
  [ ("Cache-Control", "no-cache, no-store, must-revalidate");
    ("Pragma", "no-cache");
    ("Expires", "0") ].

(** [Array.prototype.some]: in order, stopping at the first hit, a throw of
    the callback ending the scan. *)
Fixpoint some {A : Type} (f : A -> result bool) (l : list A) : result bool :=
  match l with
  | [] => Ok false
  | x :: rest => let* hit := f x in if hit then Ok true else some f rest
  end.

(** The callback of lines 172-180. *)
Definition isMatch (identifier roll no : value) (normalizedIdentifier : string)
    (record : json) : result bool :=
  (let* r := get (J record) "roll" in Ok (strict_equals r roll))
  &&& (let* n := get (J record) "no" in Ok (strict_equals n no))
  &&& ((let* p := get (J record) "payment_id" in
        Ok (truthy p)
        &&& (let* lp := toLowerCase p in Ok (String.eqb lp normalizedIdentifier)))
       ||| (let* e := get (J record) "email" in
            Ok (truthy e)
            &&& (let* le := toLowerCase e in Ok (String.eqb le normalizedIdentifier)))
       ||| (let* ph := get (J record) "phone" in
            Ok (truthy ph) &&& Ok (strict_equals ph identifier))).

(** Step 1, lines 150-189.  [Some response] is an early [return]; [None]
    falls through to step 2. *)
Definition Step1 (identifier roll no : value) : M (option Response) :=
  try_catch
    (paymentDbResponse <- fetch PAYMENT_DB_URL noCacheHeaders ;;
     if negb (ok paymentDbResponse)
     then
       r <- json_response 503 (message_of "Could not verify details at this time (DB Error).") ;;
       ret (Some r)
     else
       paymentData <- response_json paymentDbResponse ;;
       match paymentData with
       | JArr records =>
           normalizedIdentifier <- lift (toLowerCase identifier) ;;
           isValidPayment <- lift (some (isMatch identifier roll no normalizedIdentifier) records) ;;
           if negb isValidPayment
           then
             r <- json_response 403
                    (message_of "Verification failed. Payment not found or details mismatch.") ;;
             ret (Some r)
           else ret None
       | _ =>
           r <- json_response 500 (message_of "Payment data format error.") ;;
           ret (Some r)
       end)
    (fun _ =>
       r <- json_response 500 (message_of "Error during payment verification.") ;;
       ret (Some r)).

Definition notFoundText : string :=
  "Result found (payment verified), but could not retrieve full details with the provided Roll, No, and Registration Number. Please check these details or contact support.".

(** Step 2, lines 191-229. *)
Definition Step2 (roll no registration : value) : M Response :=
  url <- lift (apiUrl roll no registration) ;;
  try_catch
    (apiResponse <- fetch url [] ;;
     if negb (ok apiResponse)
     then
       text <- errorText apiResponse ;;
       let text := if up_status apiResponse =? 404 then J (JStr notFoundText) else text in
       json_response (if up_status apiResponse =? 404 then 500 else up_status apiResponse)
         [ ("message", text) ]
     else
       resultData <- response_json apiResponse ;;
       lift (new_Response (Some resultData) 200 jsonHeaders))
    (fun _ =>
       json_response 502
         (message_of "Failed to connect to the results service for full details.")).

Definition handleFullResultRequest (request : Request) : M Response :=
  match request_body request with
  | None => json_response 400 (message_of "Invalid JSON body")
  | Some requestData =>
      identifier <- lift (get (J requestData) "identifier") ;;
      roll <- lift (get (J requestData) "roll") ;;
      no <- lift (get (J requestData) "no") ;;
      registration <- lift (get (J requestData) "registration") ;;
      invalid <- lift (full_invalid identifier roll no registration) ;;
      if invalid
      then json_response 400
             (message_of "Invalid Identifier (Payment ID/Email/Phone), Roll, No, or Registration Number format. All fields are required.")
      else
        early <- Step1 identifier roll no ;;
        match early with
        | Some response => ret response
        | None => Step2 roll no registration
        end
  end.

(** *** [onRequest] *)

Definition onRequest (request : Request) : M Response :=
  if String.eqb (method request) "OPTIONS"
  then lift (new_Response None 200 corsHeaders)
  else if negb (String.eqb (method request) "POST")
  then json_response 405 (message_of "Method Not Allowed")
  else
    try_catch
      (if String.eqb (pathname request) "/api/details"
       then handleDetailsRequest request
       else if String.eqb (pathname request) "/api/full-result"
       then handleFullResultRequest request
       else json_response 404 (message_of "Not Found"))
      (fun error =>
         let errorMessage :=
           if instanceof_Error error then message error else "Internal Server Error" in
         json_response 500 (message_of errorMessage)).

End Worker.

(* ================================================================== *)
(** ** The specification's vocabulary *)
(* ================================================================== *)

Module Spec.
Import Js Web Worker.

(** A ResultQuery: [roll] reads as six digits, [no] as four, and
    [registration] is a string that is not blank. *)
Definition valid_query (roll no registration : value) : Prop :=
  digits_test 6 roll = Ok true /\
  digits_test 4 no = Ok true /\
  exists s, registration = J (JStr s) /\ trim s <> "".

(** The fields a flow reads from the parsed body. *)
Definition details_fields (requestData : json) (roll no registration referralKey : value) : Prop :=
  get (J requestData) "roll" = Ok roll /\
  get (J requestData) "no" = Ok no /\
  get (J requestData) "registration" = Ok registration /\
  get (J requestData) "referralKey" = Ok referralKey.

Definition full_fields (requestData : json) (identifier roll no registration : value) : Prop :=
  get (J requestData) "identifier" = Ok identifier /\
  get (J requestData) "roll" = Ok roll /\
  get (J requestData) "no" = Ok no /\
  get (J requestData) "registration" = Ok registration.



(** A response with the JSON headers and a [{ message }] body. *)
Definition message_response (s : Z) (text : string) : Response :=
  mkResponse s jsonHeaders (Some (JObj [ ("message", JStr text) ])).



Definition payment_call : call := GET PAYMENT_DB_URL noCacheHeaders.

(** "A record whose roll and serial fields exactly match the request's AND
    whose payment_id or email (case-insensitive) or phone (case-sensitive,
    exact) equals the supplied identifier." *)
Definition same_ignoring_case (field identifier : value) : Prop :=
  exists f i, field = J (JStr f) /\ identifier = J (JStr i) /\ lower f = lower i.

Definition record_matches (identifier roll no : value) (record : json) : Prop :=
  exists r n p e ph,
    get (J record) "roll" = Ok r /\ strict_equals r roll = true /\
    get (J record) "no" = Ok n /\ strict_equals n no = true /\
    get (J record) "payment_id" = Ok p /\
    get (J record) "email" = Ok e /\
    get (J record) "phone" = Ok ph /\
    (same_ignoring_case p identifier \/
     same_ignoring_case e identifier \/
     strict_equals ph identifier = true).

(** A payment record as the data model has it: an entry whose [payment_id]
    and [email], when present, are strings. *)
Definition string_or_falsy (v : value) : Prop :=
  truthy v = false \/ typeof v = "string".

Definition well_formed_record (record : json) : Prop :=
  exists p e,
    get (J record) "payment_id" = Ok p /\ string_or_falsy p /\
    get (J record) "email" = Ok e /\ string_or_falsy e.

(** The message step 2 forwards for a failed upstream call. *)
Definition upstream_message (apiResponse : FetchResponse) : value :=
  let fallback :=
    J (JStr ("API Error (" ++ Number_toString (up_status apiResponse) ++ "): "
             ++ up_statusText apiResponse)) in
  match up_json apiResponse with
  | Some errorJson =>
      match get (J errorJson) "message" with
      | Ok m => if truthy m then m else fallback
      | Throw _ => fallback
      end
  | None => fallback
  end.

(** A status [new Response] accepts together with a body. *)
Definition constructible (s : Z) : Prop :=
  200 <= s <= 599 /\ null_body_status s = false.

(** Step 2 run after step 1, as [handleFullResultRequest] chains them. *)
Definition after_step1 (verdict : trace * result (option Response)) (next : M Response)
    (w : world) : trace * result Response :=
  match verdict with
  | (t, Ok None) => next w t
  | (t, Ok (Some response)) => (t, Ok response)
  | (t, Throw e) => (t, Throw e)
  end.

Definition has_cors (response : Response) : Prop :=
  forall h, In h corsHeaders -> In h (response_headers response).

Definition has_json_content_type (response : Response) : Prop :=
  In ("Content-Type", "application/json") (response_headers response).

(** Every response with a body is built with [jsonHeaders]. *)
Definition json_headed (response : Response) : Prop :=
  response_headers response = jsonHeaders.

Definition early_json_headed (early : option Response) : Prop :=
  match early with
  | Some response => json_headed response
  | None => True
  end.

(** [m] returns only values satisfying [P] (it may throw). *)
Definition returns {A : Type} (P : A -> Prop) (m : M A) : Prop :=
  forall w t, match m w t with
              | (_, Ok a) => P a
              | (_, Throw _) => True
              end.

(** [m] does not throw, and returns a value satisfying [P]. *)
Definition completes {A : Type} (P : A -> Prop) (m : M A) : Prop :=
  forall w t, exists t' a, m w t = (t', Ok a) /\ P a.

(** *** The claims that fail on the code, as the specification words them *)



(** C3 at one validated query and one world. *)
Definition claim_status_forwarded (w : world) (roll no registration : value) : Prop :=
  forall url apiResponse,
    apiUrl roll no registration = Ok url ->
    answer w url = Some apiResponse ->
    ok apiResponse = false ->
    exists t response,
      run (Step2 roll no registration) w = (t, Ok response) /\
      status response =
        (if up_status apiResponse =? 404 then 500 else up_status apiResponse).

(** C6 at one request and one world. *)
Definition claim_format_error (w : world) (request : Request) : Prop :=
  forall requestData identifier roll no registration dbResponse paymentData,
    request_body request = Some requestData ->
    full_fields requestData identifier roll no registration ->
    full_invalid identifier roll no registration = Ok false ->
    answer w PAYMENT_DB_URL = Some dbResponse ->
    up_json dbResponse = Some paymentData ->
    (forall records, paymentData <> JArr records) ->
    run (handleFullResultRequest request) w =
      ([payment_call], Ok (message_response 500 "Payment data format error.")).

(** C8 at one request and one world. *)
Definition claim_headers (w : world) (request : Request) : Prop :=
  exists t response,
    run (onRequest request) w = (t, Ok response) /\
    has_cors response /\ has_json_content_type response.

End Spec.

(* ================================================================== *)
(** ** Concrete requests and worlds *)
(* ================================================================== *)

Module Examples.
Import Js Web Worker Spec.

Definition post (path : string) (requestData : json) : Request :=
  mkRequest "POST" path (Some requestData).

(** No service answers. *)
Definition offline : world := mkWorld (fun _ => None).

(** The payment store answers [db]; the board API answers [api]. *)
Definition services (db api : FetchResponse) : world :=
  mkWorld (fun url => if String.eqb url PAYMENT_DB_URL then Some db else Some api).

Definition json_reply (s : Z) (text : string) (j : json) : FetchResponse :=
  mkFetchResponse s text (Some j).

Definition query (roll no : json) (registration : string) : list (string * json) :=
  [ ("roll", roll); ("no", no); ("registration", JStr registration) ].



Definition numeric_identifier : json :=
  JObj (("identifier", JNum 5) :: query (JStr "123456") (JStr "1234") "REG1").

Definition no_payments : FetchResponse := json_reply 200 "OK" (JArr []).

Definition paid_request : json :=
  JObj (("identifier", JStr "Test@X.com") :: query (JStr "123456") (JStr "1234") "REG1").

Definition paid_request_other_registration : json :=
  JObj (("identifier", JStr "Test@X.com") :: query (JStr "123456") (JStr "1234") "REG2").

Definition paid_record : json :=
  JObj [ ("roll", JStr "123456"); ("no", JStr "1234"); ("email", JStr "test@x.COM") ].

Definition other_record : json :=
  JObj [ ("roll", JStr "123456"); ("no", JStr "9999"); ("phone", JStr "Test@X.com") ].


Definition payments (records : list json) : FetchResponse :=
  json_reply 200 "OK" (JArr records).

Definition result_found : FetchResponse :=
  json_reply 200 "OK" (JObj [ ("name", JStr "A"); ("ROll_No", JStr "1234561234") ]).

Definition store_down : FetchResponse :=
  json_reply 500 "Internal Server Error" (JObj [ ("error", JStr "down") ]).

Definition not_modified : FetchResponse :=
  mkFetchResponse 304 "Not Modified" None.

Definition not_found : FetchResponse :=
  json_reply 404 "Not Found" (JObj [ ("message", JStr "No such roll") ]).

Definition numeric_query : json :=
  JObj (("identifier", JStr "Test@X.com") :: query (JNum 123456) (JNum 1234) "REG1").

Definition numeric_record : json :=
  JObj [ ("roll", JNum 123456); ("no", JNum 1234); ("email", JStr "test@x.com") ].

Definition constructor_referral : json :=
  JObj (("referralKey", JStr "Constructor") :: query (JStr "123456") (JStr "1234") "REG1").

Definition koyel_referral : json :=
  JObj (("referralKey", JStr "Koyel") :: query (JStr "123456") (JStr "1234") " REG1 ").

Definition unknown_referral : json :=
  JObj (("referralKey", JStr "unknown") :: query (JStr "123456") (JStr "1234") "REG1").

Definition unpaid_request : json :=
  JObj (("identifier", JStr "other@x.com") :: query (JStr "123456") (JStr "1234") "REG1").

Definition store_object : FetchResponse :=
  json_reply 200 "OK" (JObj [ ("records", JArr []) ]).

End Examples.

(* ================================================================== *)
(** ** Vocabulary for the flows as a whole *)
(* ================================================================== *)

Module Behaviour.
Import Js Web Worker Spec.

(** [m] makes no downstream call. *)
Definition silent {A : Type} (m : M A) : Prop :=
  forall w t, fst (m w t) = t.


(** Arrays and objects: values compared by reference. *)
Definition is_reference (v : value) : bool :=
  match v with
  | J (JArr _) | J (JObj _) => true
  | _ => false
  end.

Definition invalid_json_400 : Response := message_response 400 "Invalid JSON body".

Definition store_unavailable_503 : Response :=
  message_response 503 "Could not verify details at this time (DB Error).".

Definition verification_error_500 : Response :=
  message_response 500 "Error during payment verification.".

Definition verification_failed_403 : Response :=
  message_response 403 "Verification failed. Payment not found or details mismatch.".

Definition details_502 : Response :=
  message_response 502 "Failed to connect to the results service.".

Definition full_502 : Response :=
  message_response 502 "Failed to connect to the results service for full details.".

(** What the router makes of a flow's outcome. *)
Definition routed (outcome : trace * result Response) : trace * result Response :=
  match outcome with
  | (t, Ok response) => (t, Ok response)
  | (t, Throw e) => (t, Ok (message_response 500 (message e)))
  end.

(** The result API did not deliver a result that can be passed on: no
    answer, a success status without a JSON body, or a failure status
    [new Response] refuses. *)
Definition undeliverable (w : world) (url : string) : Prop :=
  answer w url = None \/
  exists apiResponse,
    answer w url = Some apiResponse /\
    ((ok apiResponse = true /\ up_json apiResponse = None) \/
     (ok apiResponse = false /\ ~ constructible (up_status apiResponse))).

(** Some record of the payment store's list matches the request. *)
Definition verified_by (w : world) (identifier roll no : value) : Prop :=
  exists dbResponse records record,
    answer w PAYMENT_DB_URL = Some dbResponse /\
    ok dbResponse = true /\
    up_json dbResponse = Some (JArr records) /\
    In record records /\
    record_matches identifier roll no record.


(** More concrete data. *)
Definition array_roll_request : json :=
  JObj (("identifier", JStr "Test@X.com")
        :: Examples.query (JArr [JNum 123456]) (JStr "1234") "REG1").

Definition array_roll_record : json :=
  JObj [ ("roll", JArr [JNum 123456]); ("no", JStr "1234"); ("email", JStr "test@x.com") ].


Definition teapot : FetchResponse :=
  Examples.json_reply 418 "I'm a teapot" (JObj [ ("message", JStr "short and stout") ]).

Definition html_page : FetchResponse := mkFetchResponse 200 "OK" None.

End Behaviour.

(* ================================================================== *)
(** ** Properties *)
(* ================================================================== *)

Import Js Web Worker Spec.
Local Open Scope js_scope.

(** *** Strings and coercions *)

Lemma lower_empty (s : string) : lower s = "" -> s = "".
Proof. destruct s; [reflexivity | discriminate]. Qed.

Lemma typeof_string (v : value) :
  String.eqb (typeof v) "string" = true -> exists s, v = J (JStr s).
Proof.
  destruct v as [|[]| |]; cbn; try discriminate.
  intros _. eexists. reflexivity.
Qed.

Lemma strict_equals_string (v : value) (s : string) :
  strict_equals v (J (JStr s)) = true <-> v = J (JStr s).
Proof.
  split.
  - destruct v as [|[]| |]; cbn; try discriminate.
    intros H. apply String.eqb_eq in H. now subst.
  - intros ->. cbn. apply String.eqb_refl.
Qed.

Lemma get_total (requestData : json) (k k' : string) (v : value) :
  get (J requestData) k = Ok v -> exists v', get (J requestData) k' = Ok v'.
Proof.
  destruct requestData; cbn; try discriminate; intros _; eexists; reflexivity.
Qed.


(** Whatever reads as [k >= 2] digits is truthy: only [0] and the empty
    string are falsy among the values that read as digits. *)
Lemma digits_truthy (k : nat) (v : value) :
  (2 <= k)%nat -> digits_test k v = Ok true -> truthy v = true.
Proof.
  intros Hk. destruct k as [|[|k]]; [lia | lia | clear Hk].
  unfold digits_test, digits_only.
  destruct v as [|[| [] | n | s | l | props]| name |]; cbn -[Nat.eqb]; try reflexivity;
    intros H; try (injection H as H; apply andb_prop in H as [Hlen Hall]).
  - cbn in Hall. discriminate.
  - cbn in Hall. discriminate.
  - cbn in Hall. discriminate.
  - destruct (Z.eqb_spec n 0) as [-> | Hn]; [|reflexivity].
    cbn in Hlen. discriminate.
  - destruct s; [|reflexivity].
    cbn in Hlen. discriminate.
Qed.

(** *** Validation *)

Lemma details_invalid_spec (roll no registration : value) :
  details_invalid roll no registration = Ok false <-> valid_query roll no registration.
Proof.
  unfold valid_query. split.
  - unfold details_invalid, or_else, rbind.
    destruct (truthy roll), (truthy no), (truthy registration); cbn; try discriminate.
    destruct (digits_test 6 roll) as [[] |]; cbn; try discriminate.
    destruct (digits_test 4 no) as [[] |]; cbn; try discriminate.
    destruct (String.eqb (typeof registration) "string") eqn:Hty; cbn; try discriminate.
    destruct (typeof_string _ Hty) as [s ->]. cbn.
    destruct (String.eqb_spec (trim s) ""); try discriminate.
    intros _. repeat split; trivial. now exists s.
  - intros (H6 & H4 & s & -> & Hs).
    unfold details_invalid, or_else, rbind.
    rewrite (digits_truthy 6 roll), (digits_truthy 4 no), H6, H4 by (trivial; lia).
    destruct s as [|c s]; [now elim Hs|]. cbn -[trim String.eqb].
    change (String.eqb (String c s) "") with false. cbn -[trim String.eqb].
    destruct (String.eqb_spec (trim (String c s)) ""); [contradiction | reflexivity].
Qed.


Lemma full_invalid_details (identifier roll no registration : value) :
  full_invalid identifier roll no registration =
  if truthy identifier then details_invalid roll no registration else Ok true.
Proof.
  unfold full_invalid, details_invalid, or_else.
  destruct (truthy identifier); cbn; [reflexivity|].
  repeat match goal with |- context [match ?x with Ok _ => _ | Throw _ => _ end] =>
    destruct x as [[]|]; cbn end; reflexivity.
Qed.





(** *** Non-string identifiers *)

Lemma toLowerCase_nonstring (v : value) :
  truthy v = true -> typeof v <> "string" -> exists e, toLowerCase v = Throw e.
Proof.
  destruct v as [|[]| |]; cbn; intros Ht Hs; try discriminate; try (eexists; reflexivity).
  congruence.
Qed.

(** C9.  A truthy identifier that is not a string passes the field test of
    the full-result flow when the other fields are valid, so the flow never
    answers 400: it calls the payment store, and nothing else.  Lower-casing
    such an identifier throws, so once the store has answered with an array
    the flow answers 500 "Error during payment verification." *)
Theorem nonstring_identifier_500 (w : world) (request : Request) (requestData : json)
    (identifier roll no registration : value) :
  request_body request = Some requestData ->
  full_fields requestData identifier roll no registration ->
  truthy identifier = true ->
  typeof identifier <> "string" ->
  valid_query roll no registration ->
  full_invalid identifier roll no registration = Ok false /\
  (exists e, toLowerCase identifier = Throw e) /\
  exists response,
    run (handleFullResultRequest request) w = ([payment_call], Ok response) /\
    status response <> 400 /\
    (forall dbResponse records,
       answer w PAYMENT_DB_URL = Some dbResponse ->
       ok dbResponse = true ->
       up_json dbResponse = Some (JArr records) ->
       response = message_response 500 "Error during payment verification.").
Proof.
  intros Hb (Hi & Hr & Hn & Hg) Ht Hs Hv.
  assert (Hf : full_invalid identifier roll no registration = Ok false).
  { rewrite full_invalid_details, Ht. now apply details_invalid_spec. }
  split; [exact Hf|].
  destruct (toLowerCase_nonstring identifier Ht Hs) as [e He].
  split; [now exists e|].
  unfold run, handleFullResultRequest. rewrite Hb.
  unfold bind, lift. rewrite Hi, Hr, Hn, Hg, Hf.
  unfold Step1, try_catch, bind, fetch.
  destruct (answer w PAYMENT_DB_URL) as [dbResponse|].
  - destruct (ok dbResponse) eqn:Hok; cbn [negb].
    + unfold response_json.
      destruct (up_json dbResponse) as [paymentData|] eqn:Hj; unfold ret, lift.
      * destruct paymentData;
          try (eexists; split; [reflexivity | split; [discriminate |]];
               intros db records Hdb _ Hrec; injection Hdb as <-;
               rewrite Hj in Hrec; discriminate Hrec).
        rewrite He. eexists. split; [reflexivity | split; [discriminate |]].
        reflexivity.
      * eexists. split; [reflexivity | split; [discriminate |]].
        intros db records Hdb _ Hrec. injection Hdb as <-.
        rewrite Hj in Hrec. discriminate Hrec.
    + eexists. split; [reflexivity | split; [discriminate |]].
      intros db records Hdb Hok' _. injection Hdb as <-. congruence.
  - eexists. split; [reflexivity | split; [discriminate |]].
    intros db records Hdb. discriminate Hdb.
Qed.

Lemma nonstring_identifier_500_witness :
  let w := Examples.services Examples.no_payments Examples.no_payments in
  let request := Examples.post "/api/full-result" Examples.numeric_identifier in
  valid_query (J (JStr "123456")) (J (JStr "1234")) (J (JStr "REG1")) /\
  full_invalid (J (JNum 5)) (J (JStr "123456")) (J (JStr "1234")) (J (JStr "REG1")) = Ok false /\
  run (handleFullResultRequest request) w =
    ([payment_call], Ok (message_response 500 "Error during payment verification.")).
Proof.
  intros w request.
  assert (Hv : valid_query (J (JStr "123456")) (J (JStr "1234")) (J (JStr "REG1"))).
  { repeat split. exists "REG1". split; [reflexivity | discriminate]. }
  split; [exact Hv|].
  assert (Hfields : full_fields Examples.numeric_identifier (J (JNum 5))
                      (J (JStr "123456")) (J (JStr "1234")) (J (JStr "REG1")))
    by (repeat split; reflexivity).
  assert (Hnot : typeof (J (JNum 5)) <> "string") by discriminate.
  destruct (nonstring_identifier_500 w request Examples.numeric_identifier (J (JNum 5))
              (J (JStr "123456")) (J (JStr "1234")) (J (JStr "REG1"))
              eq_refl Hfields eq_refl Hnot Hv)
    as (Hf & _ & response & Hrun & _ & Hresp).
  split; [exact Hf|].
  rewrite Hrun.
  now rewrite (Hresp Examples.no_payments [] eq_refl eq_refl eq_refl).
Defined.

(** *** Payment verification *)

Lemma field_check (i : string) (f : value) :
  i <> "" -> string_or_falsy f ->
  exists b,
    (Ok (truthy f) &&& (let* lf := toLowerCase f in Ok (String.eqb lf (lower i)))) = Ok b /\
    (b = true <-> same_ignoring_case f (J (JStr i))).
Proof.
  intros Hi Hf. unfold and_then, rbind.
  destruct (truthy f) eqn:Ht.
  - destruct Hf as [Hf | Hf]; [congruence|].
    destruct (typeof_string f) as [fs ->]; [rewrite Hf; reflexivity|].
    cbn. eexists. split; [reflexivity|]. split.
    + intros H. apply String.eqb_eq in H. now exists fs, i.
    + intros (f' & i' & Hf' & Hi' & Heq). injection Hf' as <-. injection Hi' as <-.
      now apply String.eqb_eq.
  - exists false. split; [reflexivity|]. split; [discriminate|].
    intros (f' & i' & -> & Hi' & Heq). injection Hi' as <-.
    cbn in Ht. destruct f'; [|discriminate].
    symmetry in Heq. apply lower_empty in Heq. contradiction.
Qed.

Lemma phone_check (i : string) (ph : value) :
  i <> "" ->
  (Ok (truthy ph) &&& Ok (strict_equals ph (J (JStr i)))) = Ok (strict_equals ph (J (JStr i))).
Proof.
  intros Hi. unfold and_then, rbind.
  destruct (truthy ph) eqn:Ht; [reflexivity|].
  destruct (strict_equals ph (J (JStr i))) eqn:He; [|reflexivity].
  apply strict_equals_string in He. subst ph. cbn in Ht.
  destruct i; [contradiction | discriminate].
Qed.

(** The callback computes [record_matches] on a well-formed record. *)
Lemma isMatch_spec (i : string) (roll no : value) (record : json) :
  i <> "" -> well_formed_record record ->
  exists b,
    isMatch (J (JStr i)) roll no (lower i) record = Ok b /\
    (b = true <-> record_matches (J (JStr i)) roll no record).
Proof.
  intros Hi (p & e & Hp & Sp & He & Se).
  destruct (get_total record "payment_id" "roll" p Hp) as [r Hr].
  destruct (get_total record "payment_id" "no" p Hp) as [n Hn].
  destruct (get_total record "payment_id" "phone" p Hp) as [ph Hph].
  destruct (field_check i p Hi Sp) as (bp & Ebp & Hbp).
  destruct (field_check i e Hi Se) as (be & Ebe & Hbe).
  pose proof (phone_check i ph Hi) as Eph.
  exists (strict_equals r roll && strict_equals n no
          && (bp || be || strict_equals ph (J (JStr i)))).
  split.
  - unfold isMatch. rewrite Hr, Hn, Hp, He, Hph.
    cbn [rbind]. rewrite Ebp, Ebe, Eph.
    destruct (strict_equals r roll), (strict_equals n no), bp, be,
      (strict_equals ph (J (JStr i))); reflexivity.
  - split.
    + intros H. apply andb_prop in H as [H H3]. apply andb_prop in H as [H1 H2].
      exists r, n, p, e, ph. repeat (split; [assumption|]).
      apply orb_prop in H3 as [H3 | H3]; [apply orb_prop in H3 as [H3 | H3]|].
      * left. now apply Hbp.
      * right; left. now apply Hbe.
      * right; right. exact H3.
    + intros (r' & n' & p' & e' & ph' & Hr' & H1 & Hn' & H2 & Hp' & He' & Hph' & H3).
      rewrite Hr in Hr'. injection Hr' as <-.
      rewrite Hn in Hn'. injection Hn' as <-.
      rewrite Hp in Hp'. injection Hp' as <-.
      rewrite He in He'. injection He' as <-.
      rewrite Hph in Hph'. injection Hph' as <-.
      rewrite H1, H2. cbn.
      destruct H3 as [H3 | [H3 | H3]].
      * apply Hbp in H3. rewrite H3. reflexivity.
      * apply Hbe in H3. rewrite H3. now rewrite orb_true_r.
      * rewrite H3. now rewrite orb_true_r.
Qed.

Lemma some_spec (i : string) (roll no : value) (records : list json) :
  i <> "" -> Forall well_formed_record records ->
  exists b,
    some (isMatch (J (JStr i)) roll no (lower i)) records = Ok b /\
    (b = true <->
     exists record, In record records /\ record_matches (J (JStr i)) roll no record).
Proof.
  intros Hi Hwf. induction Hwf as [| record records Hrec _ IH].
  - exists false. split; [reflexivity|]. split; [discriminate|].
    intros (record & [] & _).
  - destruct (isMatch_spec i roll no record Hi Hrec) as (b & Eb & Hb).
    destruct IH as (bs & Ebs & Hbs).
    cbn [some]. rewrite Eb. cbn [rbind]. destruct b.
    + exists true. split; [reflexivity|]. split; [|reflexivity].
      intros _. exists record. split; [now left | now apply Hb].
    + exists bs. split; [exact Ebs|]. split.
      * intros H. apply Hbs in H as (x & Hin & Hx). exists x. split; [now right | exact Hx].
      * intros (x & [<- | Hin] & Hx).
        -- apply Hb in Hx. discriminate.
        -- apply Hbs. now exists x.
Qed.





(** C7.  Two validated full-result requests that agree on [identifier],
    [roll] and [no] run the same verification, [Step1 identifier roll no],
    over the same world: its calls and its verdict do not depend on
    [registration], which enters only in step 2, where the result-API path is
    built.  So when verification does not pass, the two requests get the same
    answer after the same calls. *)
Theorem registration_not_verified (w : world) (request1 request2 : Request)
    (requestData1 requestData2 : json)
    (identifier roll no registration1 registration2 : value) :
  request_body request1 = Some requestData1 ->
  request_body request2 = Some requestData2 ->
  full_fields requestData1 identifier roll no registration1 ->
  full_fields requestData2 identifier roll no registration2 ->
  full_invalid identifier roll no registration1 = Ok false ->
  full_invalid identifier roll no registration2 = Ok false ->
  run (handleFullResultRequest request1) w =
    after_step1 (run (Step1 identifier roll no) w) (Step2 roll no registration1) w /\
  run (handleFullResultRequest request2) w =
    after_step1 (run (Step1 identifier roll no) w) (Step2 roll no registration2) w /\
  ((forall t, run (Step1 identifier roll no) w <> (t, Ok None)) ->
   run (handleFullResultRequest request1) w = run (handleFullResultRequest request2) w).
Proof.
  intros Hb1 Hb2 (Hi1 & Hr1 & Hn1 & Hg1) (Hi2 & Hr2 & Hn2 & Hg2) Hf1 Hf2.
  assert (H1 : run (handleFullResultRequest request1) w =
               after_step1 (run (Step1 identifier roll no) w) (Step2 roll no registration1) w).
  { unfold run, handleFullResultRequest. rewrite Hb1.
    unfold bind at 1 2 3 4 5. unfold lift at 1 2 3 4 5. rewrite Hi1, Hr1, Hn1, Hg1, Hf1.
    unfold bind, after_step1.
    destruct (Step1 identifier roll no w []) as [t [[response|]|e]]; reflexivity. }
  assert (H2 : run (handleFullResultRequest request2) w =
               after_step1 (run (Step1 identifier roll no) w) (Step2 roll no registration2) w).
  { unfold run, handleFullResultRequest. rewrite Hb2.
    unfold bind at 1 2 3 4 5. unfold lift at 1 2 3 4 5. rewrite Hi2, Hr2, Hn2, Hg2, Hf2.
    unfold bind, after_step1.
    destruct (Step1 identifier roll no w []) as [t [[response|]|e]]; reflexivity. }
  split; [exact H1 | split; [exact H2 |]].
  intros Hfail. rewrite H1, H2. unfold after_step1.
  destruct (run (Step1 identifier roll no) w) as [t [[response|]|e]]; try reflexivity.
  now elim (Hfail t).
Qed.

Lemma registration_not_verified_witness :
  let w := Examples.services (Examples.payments [Examples.other_record]) Examples.result_found in
  let request1 := Examples.post "/api/full-result" Examples.paid_request in
  let request2 := Examples.post "/api/full-result" Examples.paid_request_other_registration in
  let identifier := J (JStr "Test@X.com") in
  let roll := J (JStr "123456") in
  let no := J (JStr "1234") in
  full_invalid identifier roll no (J (JStr "REG1")) = Ok false /\
  full_invalid identifier roll no (J (JStr "REG2")) = Ok false /\
  run (handleFullResultRequest request1) w =
    after_step1 (run (Step1 identifier roll no) w) (Step2 roll no (J (JStr "REG1"))) w /\
  run (handleFullResultRequest request2) w =
    after_step1 (run (Step1 identifier roll no) w) (Step2 roll no (J (JStr "REG2"))) w /\
  ((forall t, run (Step1 identifier roll no) w <> (t, Ok None)) ->
   run (handleFullResultRequest request1) w = run (handleFullResultRequest request2) w).
Proof.
  intros w request1 request2 identifier roll no.
  split; [reflexivity | split; [reflexivity |]].
  apply (registration_not_verified w request1 request2 Examples.paid_request
           Examples.paid_request_other_registration identifier roll no
           (J (JStr "REG1")) (J (JStr "REG2")));
    try reflexivity; repeat split; reflexivity.
Defined.

(** C6 (amended).  In the full-result flow, when the payment store answers
    with a success status and a body that parses as JSON but is not an array,
    the flow answers 500 "Payment data format error." after the one call to
    the payment store: no record is scanned and the result API is not
    called. *)
Theorem non_array_payment_data (w : world) (request : Request) (requestData : json)
    (identifier roll no registration : value) (dbResponse : FetchResponse)
    (paymentData : json) :
  request_body request = Some requestData ->
  full_fields requestData identifier roll no registration ->
  full_invalid identifier roll no registration = Ok false ->
  answer w PAYMENT_DB_URL = Some dbResponse ->
  ok dbResponse = true ->
  up_json dbResponse = Some paymentData ->
  (forall records, paymentData <> JArr records) ->
  run (handleFullResultRequest request) w =
    ([payment_call], Ok (message_response 500 "Payment data format error.")).
Proof.
  intros Hb (Hi & Hr & Hn & Hg) Hf Ha Hok Hj Hna.
  unfold run, handleFullResultRequest. rewrite Hb.
  unfold bind at 1 2 3 4 5. unfold lift at 1 2 3 4 5. rewrite Hi, Hr, Hn, Hg, Hf.
  unfold bind, Step1, try_catch, bind, fetch. rewrite Ha, Hok. cbn [negb].
  unfold response_json. rewrite Hj. unfold ret.
  destruct paymentData; try reflexivity.
  now elim (Hna items).
Qed.

Lemma non_array_payment_data_witness :
  let w := Examples.services Examples.store_object Examples.result_found in
  let request := Examples.post "/api/full-result" Examples.paid_request in
  ok Examples.store_object = true /\
  (forall records, JObj [ ("records", JArr []) ] <> JArr records) /\
  run (handleFullResultRequest request) w =
    ([payment_call], Ok (message_response 500 "Payment data format error.")).
Proof.
  intros w request.
  split; [reflexivity | split; [discriminate |]].
  apply (non_array_payment_data w request Examples.paid_request (J (JStr "Test@X.com"))
           (J (JStr "123456")) (J (JStr "1234")) (J (JStr "REG1")) Examples.store_object
           (JObj [ ("records", JArr []) ]));
    try reflexivity; try (repeat split; reflexivity); discriminate.
Defined.

(** C6 as stated fails: a payment-store answer with a failure status and a
    JSON body that is not an array is answered 503, the body never being
    read. *)
Lemma failed_store_not_format_error :
  ~ claim_format_error
      (Examples.services Examples.store_down Examples.result_found)
      (Examples.post "/api/full-result" Examples.paid_request).
Proof.
  intros H.
  assert (Hrun := H Examples.paid_request (J (JStr "Test@X.com")) (J (JStr "123456"))
                    (J (JStr "1234")) (J (JStr "REG1")) Examples.store_down
                    (JObj [ ("error", JStr "down") ]) eq_refl
                    (conj eq_refl (conj eq_refl (conj eq_refl eq_refl)))
                    eq_refl eq_refl eq_refl ltac:(discriminate)).
  vm_compute in Hrun. discriminate Hrun.
Qed.

(** *** The result fetch *)

Lemma errorText_run (apiResponse : FetchResponse) (w : world) (t : trace) :
  errorText apiResponse w t = (t, Ok (upstream_message apiResponse)).
Proof.
  unfold errorText, upstream_message, try_catch, bind, response_json.
  destruct (up_json apiResponse) as [errorJson|]; unfold ret, lift; [|reflexivity].
  destruct (get (J errorJson) "message") as [m|]; reflexivity.
Qed.

Lemma new_Response_constructible (j : json) (s : Z) (h : headers) :
  constructible s -> new_Response (Some j) s h = Ok (mkResponse s h (Some j)).
Proof.
  intros [Hs Hn]. unfold new_Response. rewrite Hn.
  destruct (Z.ltb_spec s 200); [lia|].
  destruct (Z.ltb_spec 599 s); [lia|]. reflexivity.
Qed.

Lemma Step2_failure (w : world) (roll no registration : value) (url : string)
    (apiResponse : FetchResponse) (t : trace) :
  apiUrl roll no registration = Ok url ->
  answer w url = Some apiResponse ->
  ok apiResponse = false ->
  constructible (up_status apiResponse) ->
  Step2 roll no registration w t =
    ((t ++ [GET url []])%list,
     Ok (mkResponse
           (if up_status apiResponse =? 404 then 500 else up_status apiResponse)
           jsonHeaders
           (Some (JSON_stringify
                    [ ("message",
                       if up_status apiResponse =? 404
                       then J (JStr notFoundText)
                       else upstream_message apiResponse) ])))).
Proof.
  intros Hu Ha Hok Hc.
  unfold Step2. unfold bind at 1. unfold lift at 1. rewrite Hu.
  unfold try_catch, bind, fetch. rewrite Ha, Hok. cbn [negb].
  rewrite errorText_run. unfold json_response, lift.
  destruct (up_status apiResponse =? 404).
  - reflexivity.
  - rewrite new_Response_constructible by exact Hc. reflexivity.
Qed.

(** C3 (amended).  In the full-result flow, once verification has passed,
    a result-API answer with a non-success status that [new Response]
    accepts together with a body (200..599, not 204, 205 or 304) is passed on
    with that status and the upstream message (or the "API Error" fallback),
    except exactly for 404, where the status becomes 500 and the message the
    fixed "Result found (payment verified), ..." text. *)
Theorem upstream_failure_forwarded (w : world) (request : Request) (requestData : json)
    (identifier roll no registration : value) (t1 : trace) (url : string)
    (apiResponse : FetchResponse) :
  request_body request = Some requestData ->
  full_fields requestData identifier roll no registration ->
  full_invalid identifier roll no registration = Ok false ->
  run (Step1 identifier roll no) w = (t1, Ok None) ->
  apiUrl roll no registration = Ok url ->
  answer w url = Some apiResponse ->
  ok apiResponse = false ->
  constructible (up_status apiResponse) ->
  run (handleFullResultRequest request) w =
    ((t1 ++ [GET url []])%list,
     Ok (mkResponse
           (if up_status apiResponse =? 404 then 500 else up_status apiResponse)
           jsonHeaders
           (Some (JSON_stringify
                    [ ("message",
                       if up_status apiResponse =? 404
                       then J (JStr notFoundText)
                       else upstream_message apiResponse) ])))).
Proof.
  intros Hb (Hi & Hr & Hn & Hg) Hf H1 Hu Ha Hok Hc.
  unfold run in *. unfold handleFullResultRequest. rewrite Hb.
  unfold bind at 1 2 3 4 5. unfold lift at 1 2 3 4 5. rewrite Hi, Hr, Hn, Hg, Hf.
  unfold bind at 1. rewrite H1.
  now apply Step2_failure.
Qed.

Lemma upstream_failure_forwarded_witness :
  let w := Examples.services (Examples.payments [Examples.paid_record]) Examples.not_found in
  let request := Examples.post "/api/full-result" Examples.paid_request in
  ok Examples.not_found = false /\
  constructible 404 /\
  run (handleFullResultRequest request) w =
    ([payment_call; GET (BOARD_API_BASE_URL ++ "/1234561234/REG1") []],
     Ok (message_response 500 notFoundText)).
Proof.
  intros w request.
  assert (Hc : constructible 404) by (split; [lia | reflexivity]).
  split; [reflexivity | split; [exact Hc |]].
  apply (upstream_failure_forwarded w request Examples.paid_request (J (JStr "Test@X.com"))
           (J (JStr "123456")) (J (JStr "1234")) (J (JStr "REG1")) [payment_call]
           (BOARD_API_BASE_URL ++ "/1234561234/REG1") Examples.not_found);
    try reflexivity; try (repeat split; reflexivity); exact Hc.
Defined.

(** C3 as stated fails: an upstream 304 is not passed on.  [new Response]
    refuses a body on that status, the [catch] of step 2 takes over and the
    flow answers 502. *)
Lemma not_modified_not_forwarded :
  ~ claim_status_forwarded
      (Examples.services (Examples.payments [Examples.paid_record]) Examples.not_modified)
      (J (JStr "123456")) (J (JStr "1234")) (J (JStr "REG1")).
Proof.
  intros H.
  destruct (H (BOARD_API_BASE_URL ++ "/1234561234/REG1") Examples.not_modified
              eq_refl eq_refl eq_refl) as (t & response & Hrun & Hs).
  vm_compute in Hrun. injection Hrun as _ <-. discriminate Hs.
Qed.

(** *** The result-API path *)

Lemma valid_primitive (k : nat) (v : value) :
  digits_test k v = Ok true ->
  (exists n, v = J (JNum n)) \/
  (exists s, ToPrimitive v = Ok (PStr s) /\ ToString v = Ok s).
Proof.
  unfold digits_test, digits_only.
  destruct v as [|[| [] | n | s | l | props]| name |];
    try solve [cbn -[Nat.eqb]; intros H; injection H as H;
               apply andb_prop in H as [_ Hall]; cbn in Hall; discriminate];
    intros H.
  - left. now exists n.
  - right. now exists s.
  - right. unfold ToPrimitive.
    destruct (ToString (J (JArr l))) as [s|]; [|discriminate]. now exists s.
  - right. unfold ToPrimitive.
    destruct (ToString (J (JObj props))) as [s|]; [|discriminate]. now exists s.
Qed.


(** C5 fails on numbers.  A body whose [roll] and [no] are the JSON numbers
    123456 and 1234 passes validation in both flows, and [roll + no] is then
    their sum: both flows call [.../124690/REG1], not [.../1234561234/REG1]. *)
Theorem numeric_roll_is_added :
  let roll := J (JNum 123456) in
  let no := J (JNum 1234) in
  let registration := J (JStr "REG1") in
  let w := Examples.services (Examples.payments [Examples.numeric_record]) Examples.result_found in
  details_invalid roll no registration = Ok false /\
  full_invalid (J (JStr "Test@X.com")) roll no registration = Ok false /\
  ToString roll = Ok "123456" /\
  ToString no = Ok "1234" /\
  apiUrl roll no registration = Ok (BOARD_API_BASE_URL ++ "/124690/REG1") /\
  fst (run (handleDetailsRequest (Examples.post "/api/details" Examples.numeric_query)) w)
    = [GET (BOARD_API_BASE_URL ++ "/124690/REG1") []] /\
  fst (run (handleFullResultRequest (Examples.post "/api/full-result" Examples.numeric_query)) w)
    = [payment_call; GET (BOARD_API_BASE_URL ++ "/124690/REG1") []].
Proof.
  repeat split; vm_compute; reflexivity.
Qed.

(** *** The referral key *)

Lemma referral_absent (referralKey : value) :
  truthy referralKey = false ->
  paymentButtonIdToUse referralKey = Ok (J (JStr defaultRazorpayButtonId)).
Proof.
  intros H. unfold paymentButtonIdToUse, and_then, rbind. rewrite H. reflexivity.
Qed.



(** C4 fails on inherited names.  The key ["Constructor"] lower-cases to
    ["constructor"], which is not an entry of the referral table, yet the
    lookup finds it on [Object.prototype]: the resolved id is the built-in
    [Object] function, not the default, and the 200 payload then has no
    [paymentButtonId] at all.  ["__proto__"] resolves to the prototype
    object in the same way. *)
Theorem inherited_key_is_not_default :
  let w := Examples.services Examples.no_payments Examples.result_found in
  toLowerCase (J (JStr "Constructor")) = Ok "constructor" /\
  own_property "constructor" referralButtonMap = None /\
  paymentButtonIdToUse (J (JStr "Constructor")) = Ok (Builtin "Object") /\
  paymentButtonIdToUse (J (JStr "__proto__")) = Ok ObjectPrototype /\
  run (handleDetailsRequest (Examples.post "/api/details" Examples.constructor_referral)) w =
    ([GET (BOARD_API_BASE_URL ++ "/1234561234/REG1") []],
     Ok (mkResponse 200 jsonHeaders
           (Some (JObj [ ("name", JStr "A"); ("rollNo", JStr "1234561234") ])))).
Proof.
  repeat split; vm_compute; reflexivity.
Qed.

(** *** Missing upstream fields *)

(** C10.  In the details flow, when the result API answers a validated
    request with a success status and a JSON object, the flow answers 200
    whatever fields the object has: reading an absent [name], [ROll_No] or
    [Reg_No] yields [undefined] without raising, and the corresponding key
    ([name], [rollNo], [regNo]) is then absent from the serialized payload;
    a field that is present is copied under its new name. *)
Theorem missing_fields_still_200 (w : world) (request : Request) (requestData : json)
    (roll no registration referralKey button : value) (url : string)
    (apiResponse : FetchResponse) (props : list (string * json)) :
  request_body request = Some requestData ->
  details_fields requestData roll no registration referralKey ->
  valid_query roll no registration ->
  paymentButtonIdToUse referralKey = Ok button ->
  apiUrl roll no registration = Ok url ->
  answer w url = Some apiResponse ->
  ok apiResponse = true ->
  up_json apiResponse = Some (JObj props) ->
  exists payload,
    run (handleDetailsRequest request) w =
      ([GET url []], Ok (mkResponse 200 jsonHeaders (Some (JObj payload)))) /\
    own_property "name" payload = own_property "name" props /\
    own_property "rollNo" payload = own_property "ROll_No" props /\
    own_property "regNo" payload = own_property "Reg_No" props.
Proof.
  intros Hb (Hr & Hn & Hg & Hk) Hv Hbtn Hu Ha Hok Hj.
  apply details_invalid_spec in Hv.
  eexists. split.
  - unfold run, handleDetailsRequest. rewrite Hb.
    unfold bind at 1 2 3 4 5 6 7. unfold lift at 1 2 3 4 5 6 7.
    rewrite Hr, Hn, Hg, Hk, Hv, Hbtn, Hu.
    unfold try_catch, bind, fetch. rewrite Ha, Hok. cbn [negb].
    unfold response_json. rewrite Hj. unfold ret, lift. cbn [get].
    unfold json_response, lift, JSON_stringify. cbn [new_Response Z.ltb Z.compare orb Pos.compare Pos.compare_cont null_body_status Z.eqb Pos.eqb].
    reflexivity.
  - unfold lookup.
    destruct (own_property "name" props), (own_property "ROll_No" props),
      (own_property "Reg_No" props), button; cbn; repeat split; reflexivity.
Qed.

Lemma missing_fields_still_200_witness :
  let w := Examples.services Examples.no_payments Examples.result_found in
  let request := Examples.post "/api/details" Examples.koyel_referral in
  valid_query (J (JStr "123456")) (J (JStr "1234")) (J (JStr " REG1 ")) /\
  ok Examples.result_found = true /\
  exists payload,
    run (handleDetailsRequest request) w =
      ([GET (BOARD_API_BASE_URL ++ "/1234561234/REG1") []],
       Ok (mkResponse 200 jsonHeaders (Some (JObj payload)))) /\
    own_property "name" payload = Some (JStr "A") /\
    own_property "rollNo" payload = Some (JStr "1234561234") /\
    own_property "regNo" payload = None.
Proof.
  intros w request.
  assert (Hv : valid_query (J (JStr "123456")) (J (JStr "1234")) (J (JStr " REG1 "))).
  { repeat split. exists " REG1 ". split; [reflexivity | discriminate]. }
  split; [exact Hv | split; [reflexivity |]].
  apply (missing_fields_still_200 w request Examples.koyel_referral
           (J (JStr "123456")) (J (JStr "1234")) (J (JStr " REG1 ")) (J (JStr "Koyel"))
           (J (JStr "pl_QMWdxwIPVZYTpi")) (BOARD_API_BASE_URL ++ "/1234561234/REG1")
           Examples.result_found
           [ ("name", JStr "A"); ("ROll_No", JStr "1234561234") ]);
    try reflexivity; try (repeat split; reflexivity); exact Hv.
Defined.

(** *** Response headers *)

Section Returns.
Context {A B : Type}.

Lemma returns_bind (P : B -> Prop) (m : M A) (k : A -> M B) :
  (forall a, returns P (k a)) -> returns P (bind m k).
Proof.
  intros Hk w t. unfold bind.
  destruct (m w t) as [t' [a|e]]; [apply Hk | exact I].
Qed.

Lemma returns_try_catch (P : A -> Prop) (m : M A) (handler : exn -> M A) :
  returns P m -> (forall e, returns P (handler e)) -> returns P (try_catch m handler).
Proof.
  intros Hm Hh w t. unfold try_catch.
  specialize (Hm w t). destruct (m w t) as [t' [a|e]]; [exact Hm | apply Hh].
Qed.

Lemma completes_try_catch (P : A -> Prop) (m : M A) (handler : exn -> M A) :
  returns P m -> (forall e, completes P (handler e)) -> completes P (try_catch m handler).
Proof.
  intros Hm Hh w t. unfold try_catch.
  specialize (Hm w t). destruct (m w t) as [t' [a|e]]; [|apply Hh].
  exists t', a. split; [reflexivity | exact Hm].
Qed.

Lemma returns_ret (P : A -> Prop) (a : A) : P a -> returns P (ret a).
Proof. intros Ha w t. exact Ha. Qed.
End Returns.

Lemma new_Response_headers (b : option json) (s : Z) (h : headers) (response : Response) :
  new_Response b s h = Ok response -> response_headers response = h.
Proof.
  unfold new_Response.
  destruct ((s <? 200) || (599 <? s)); [discriminate|].
  destruct b; [destruct (null_body_status s); [discriminate|]|];
    intros H; injection H as <-; reflexivity.
Qed.

Lemma returns_json_response (s : Z) (payload : list (string * value)) :
  returns json_headed (json_response s payload).
Proof.
  intros w t. unfold json_response, lift.
  destruct (new_Response _ s jsonHeaders) as [response|] eqn:E; [|exact I].
  now apply new_Response_headers in E.
Qed.

Lemma completes_json_response (s : Z) (payload : list (string * value)) :
  constructible s -> completes json_headed (json_response s payload).
Proof.
  intros Hc w t. unfold json_response, lift.
  rewrite new_Response_constructible by exact Hc.
  eexists _, _. split; reflexivity.
Qed.

Lemma returns_early (s : Z) (payload : list (string * value)) :
  returns early_json_headed (bind (json_response s payload) (fun r => ret (Some r))).
Proof.
  intros w t. unfold bind.
  pose proof (returns_json_response s payload w t) as H.
  destruct (json_response s payload w t) as [t' [r|e]]; [exact H | exact I].
Qed.

Create HintDb responses.
#[local] Hint Resolve returns_json_response returns_early : responses.

Ltac bound x := apply returns_bind; intros x.

Lemma handleDetailsRequest_headers (request : Request) :
  returns json_headed (handleDetailsRequest request).
Proof.
  unfold handleDetailsRequest.
  destruct (request_body request) as [requestData|]; [|auto with responses].
  bound roll. bound no. bound registration. bound referralKey. bound invalid.
  destruct invalid; [auto with responses|].
  bound button. bound url.
  apply returns_try_catch; [|auto with responses].
  bound apiResponse.
  destruct (negb (ok apiResponse)).
  - bound text. auto with responses.
  - bound data. bound name. bound rollNo. bound regNo. auto with responses.
Qed.

Lemma Step1_headers (identifier roll no : value) :
  returns early_json_headed (Step1 identifier roll no).
Proof.
  unfold Step1.
  apply returns_try_catch; [|auto with responses].
  bound paymentDbResponse.
  destruct (negb (ok paymentDbResponse)); [auto with responses|].
  bound paymentData.
  destruct paymentData; auto with responses.
  bound normalizedIdentifier. bound isValidPayment.
  destruct (negb isValidPayment); [auto with responses|].
  now apply returns_ret.
Qed.

Lemma Step2_headers (roll no registration : value) :
  returns json_headed (Step2 roll no registration).
Proof.
  unfold Step2.
  bound url.
  apply returns_try_catch; [|auto with responses].
  bound apiResponse.
  destruct (negb (ok apiResponse)).
  - bound text. auto with responses.
  - bound resultData. intros w t. unfold lift.
    destruct (new_Response _ 200 jsonHeaders) as [response|] eqn:E; [|exact I].
    now apply new_Response_headers in E.
Qed.

Lemma handleFullResultRequest_headers (request : Request) :
  returns json_headed (handleFullResultRequest request).
Proof.
  unfold handleFullResultRequest.
  destruct (request_body request) as [requestData|]; [|auto with responses].
  bound identifier. bound roll. bound no. bound registration. bound invalid.
  destruct invalid; [auto with responses|].
  intros w t. unfold bind.
  pose proof (Step1_headers identifier roll no w t) as H1.
  destruct (Step1 identifier roll no w t) as [t' [[response|]|e]]; [exact H1 | | exact I].
  apply Step2_headers.
Qed.

Lemma constructible_constant (s : Z) :
  (200 <=? s) && (s <=? 599) && negb (null_body_status s) = true -> constructible s.
Proof.
  intros H. apply andb_prop in H as [H Hn]. apply andb_prop in H as [H1 H2].
  split; [lia | now apply negb_true_iff].
Qed.

(** C8 (amended).  The handler answers every request, whatever the services
    do, and every response carries the three cross-origin headers; every
    response other than the one to [OPTIONS], which has no body, also carries
    the JSON content type. *)
Theorem every_response_has_cors (w : world) (request : Request) :
  exists t response,
    run (onRequest request) w = (t, Ok response) /\
    has_cors response /\
    (method request <> "OPTIONS" -> has_json_content_type response).
Proof.
  unfold run, onRequest.
  destruct (String.eqb_spec (method request) "OPTIONS") as [Hopt | Hopt].
  - eexists _, _. split; [reflexivity|]. split; [intros h Hh; exact Hh | contradiction].
  - assert (Hjson : forall response, json_headed response ->
                      has_cors response /\ has_json_content_type response).
    { intros response Hr. unfold has_cors, has_json_content_type. rewrite Hr.
      split; [intros h Hh; apply in_or_app; now left | apply in_or_app; right; now left]. }
    assert (Hdone : completes json_headed
              (if negb (String.eqb (method request) "POST")
               then json_response 405 (message_of "Method Not Allowed")
               else
                 try_catch
                   (if String.eqb (pathname request) "/api/details"
                    then handleDetailsRequest request
                    else if String.eqb (pathname request) "/api/full-result"
                    then handleFullResultRequest request
                    else json_response 404 (message_of "Not Found"))
                   (fun error =>
                      let errorMessage :=
                        if instanceof_Error error then message error
                        else "Internal Server Error" in
                      json_response 500 (message_of errorMessage)))).
    { destruct (negb (String.eqb (method request) "POST")).
      - apply completes_json_response, constructible_constant. reflexivity.
      - apply completes_try_catch.
        + destruct (String.eqb (pathname request) "/api/details");
            [apply handleDetailsRequest_headers|].
          destruct (String.eqb (pathname request) "/api/full-result");
            [apply handleFullResultRequest_headers | apply returns_json_response].
        + intros e. apply completes_json_response, constructible_constant. reflexivity. }
    destruct (Hdone w []) as (t & response & Hrun & Hr).
    exists t, response. split; [exact Hrun|].
    destruct (Hjson response Hr) as [Hc Hj]. split; [exact Hc | intros _; exact Hj].
Qed.

Lemma every_response_has_cors_witness :
  exists t response,
    run (onRequest (Examples.post "/api/unknown" JNull)) Examples.offline = (t, Ok response) /\
    has_cors response /\ has_json_content_type response.
Proof.
  destruct (every_response_has_cors Examples.offline (Examples.post "/api/unknown" JNull))
    as (t & response & Hrun & Hc & Hj).
  exists t, response. split; [exact Hrun | split; [exact Hc |]].
  apply Hj. discriminate.
Defined.

(** C8 as stated fails: the response to [OPTIONS] is built with
    [corsHeaders] alone and has no content type. *)
Lemma options_has_no_content_type :
  ~ claim_headers Examples.offline (mkRequest "OPTIONS" "/api/details" None).
Proof.
  intros (t & response & Hrun & _ & Hj).
  vm_compute in Hrun. injection Hrun as _ <-. 
  unfold has_json_content_type in Hj. cbn in Hj.
  repeat destruct Hj as [Hj | Hj]; try discriminate Hj. exact Hj.
Qed.

(** *** The specification's examples *)

(** [referralKey = "koyel"] (in any case) selects Koyel's button; an unknown
    key selects the default. *)
Example details_example :
  let w := Examples.services Examples.no_payments Examples.result_found in
  let payload button :=
    JObj [ ("name", JStr "A"); ("rollNo", JStr "1234561234"); ("paymentButtonId", JStr button) ] in
  run (handleDetailsRequest (Examples.post "/api/details" Examples.koyel_referral)) w =
    ([GET (BOARD_API_BASE_URL ++ "/1234561234/REG1") []],
     Ok (mkResponse 200 jsonHeaders (Some (payload "pl_QMWdxwIPVZYTpi")))) /\
  run (handleDetailsRequest (Examples.post "/api/details" Examples.unknown_referral)) w =
    ([GET (BOARD_API_BASE_URL ++ "/1234561234/REG1") []],
     Ok (mkResponse 200 jsonHeaders (Some (payload "pl_QMXOuva67vyoan")))).
Proof. split; vm_compute; reflexivity. Qed.

(** An identifier matching a stored email up to case goes on to the result
    fetch; one that matches nothing is answered 403. *)
Example full_result_example :
  let w := Examples.services (Examples.payments [Examples.paid_record]) Examples.result_found in
  run (handleFullResultRequest (Examples.post "/api/full-result" Examples.paid_request)) w =
    ([payment_call; GET (BOARD_API_BASE_URL ++ "/1234561234/REG1") []],
     Ok (mkResponse 200 jsonHeaders
           (Some (JObj [ ("name", JStr "A"); ("ROll_No", JStr "1234561234") ])))) /\
  run (handleFullResultRequest (Examples.post "/api/full-result" Examples.unpaid_request)) w =
    ([payment_call],
     Ok (message_response 403 "Verification failed. Payment not found or details mismatch.")).
Proof. split; vm_compute; reflexivity. Qed.

(* ================================================================== *)
(** ** Further properties of the handlers *)
(* ================================================================== *)

Import Behaviour.

(** *** Validation *)


(** *** Routing *)

(** X2.  A request that is not a [POST] to one of the two paths never
    reaches a flow: [OPTIONS] gets an empty 200 with the cross-origin
    headers, any other method a 405, a [POST] elsewhere a 404, all without a
    downstream call and whatever the body is. *)
Theorem unrouted_requests (w : world) (request : Request) :
  (method request = "OPTIONS" ->
   run (onRequest request) w = ([], Ok (mkResponse 200 corsHeaders None))) /\
  (method request <> "OPTIONS" -> method request <> "POST" ->
   run (onRequest request) w = ([], Ok (message_response 405 "Method Not Allowed"))) /\
  (method request = "POST" ->
   pathname request <> "/api/details" -> pathname request <> "/api/full-result" ->
   run (onRequest request) w = ([], Ok (message_response 404 "Not Found"))).
Proof.
  unfold run, onRequest. repeat split.
  - intros ->. reflexivity.
  - intros Ho Hp.
    destruct (String.eqb_spec (method request) "OPTIONS"); [contradiction|].
    destruct (String.eqb_spec (method request) "POST"); [contradiction|].
    reflexivity.
  - intros -> Hd Hf. cbn [String.eqb Ascii.eqb Bool.eqb negb].
    unfold try_catch.
    destruct (String.eqb_spec (pathname request) "/api/details"); [contradiction|].
    destruct (String.eqb_spec (pathname request) "/api/full-result"); [contradiction|].
    reflexivity.
Qed.

Lemma unrouted_requests_witness :
  run (onRequest (mkRequest "OPTIONS" "/anything" None)) Examples.offline
    = ([], Ok (mkResponse 200 corsHeaders None)) /\
  run (onRequest (mkRequest "GET" "/api/details" None)) Examples.offline
    = ([], Ok (message_response 405 "Method Not Allowed")) /\
  run (onRequest (Examples.post "/api/other" Examples.paid_request)) Examples.offline
    = ([], Ok (message_response 404 "Not Found")).
Proof.
  split; [|split].
  - destruct (unrouted_requests Examples.offline (mkRequest "OPTIONS" "/anything" None))
      as (H & _ & _).
    exact (H eq_refl).
  - destruct (unrouted_requests Examples.offline (mkRequest "GET" "/api/details" None))
      as (_ & H & _).
    apply H; discriminate.
  - destruct (unrouted_requests Examples.offline
                (Examples.post "/api/other" Examples.paid_request)) as (_ & _ & H).
    apply H; [reflexivity | discriminate | discriminate].
Defined.

(** X3.  On the two paths the router passes a flow's response through
    unchanged, and turns whatever a flow throws into a 500 carrying the
    exception's message; the downstream calls are those of the flow. *)
Theorem router_wraps_flows (w : world) (request : Request) :
  method request = "POST" ->
  (pathname request = "/api/details" ->
   run (onRequest request) w = routed (run (handleDetailsRequest request) w)) /\
  (pathname request = "/api/full-result" ->
   run (onRequest request) w = routed (run (handleFullResultRequest request) w)).
Proof.
  intros Hm. unfold run, onRequest. rewrite Hm.
  cbn [String.eqb Ascii.eqb Bool.eqb negb]. unfold try_catch, routed.
  split; intros ->; cbn [String.eqb Ascii.eqb Bool.eqb].
  - destruct (handleDetailsRequest request w []) as [t [response|e]]; reflexivity.
  - destruct (handleFullResultRequest request w []) as [t [response|e]]; reflexivity.
Qed.

Lemma router_wraps_flows_witness :
  run (onRequest (Examples.post "/api/details" JNull)) Examples.offline =
    ([], Ok (message_response 500 "Cannot read properties of null (reading 'roll')")).
Proof.
  destruct (router_wraps_flows Examples.offline (Examples.post "/api/details" JNull) eq_refl)
    as [Hd _].
  rewrite (Hd eq_refl). reflexivity.
Defined.

(** X4.  A [POST] to either path whose body is not JSON is answered 400
    "Invalid JSON body" before any field is read and without a downstream
    call. *)
Theorem unparsable_body_400 (w : world) (request : Request) :
  method request = "POST" ->
  request_body request = None ->
  pathname request = "/api/details" \/ pathname request = "/api/full-result" ->
  run (onRequest request) w = ([], Ok invalid_json_400).
Proof.
  intros Hm Hb Hp. unfold run, onRequest. rewrite Hm.
  cbn [String.eqb Ascii.eqb Bool.eqb negb]. unfold try_catch.
  destruct Hp as [-> | ->]; cbn [String.eqb Ascii.eqb Bool.eqb].
  - unfold handleDetailsRequest. rewrite Hb. reflexivity.
  - unfold handleFullResultRequest. rewrite Hb. reflexivity.
Qed.

Lemma unparsable_body_400_witness :
  run (onRequest (mkRequest "POST" "/api/full-result" None)) Examples.offline
    = ([], Ok invalid_json_400).
Proof.
  apply (unparsable_body_400 Examples.offline (mkRequest "POST" "/api/full-result" None));
    [reflexivity | reflexivity | right; reflexivity].
Defined.

(** *** Downstream calls *)

Lemma silent_lift {A : Type} (r : result A) : silent (lift r).
Proof. intros w t. reflexivity. Qed.

Lemma silent_ret {A : Type} (a : A) : silent (ret a).
Proof. intros w t. reflexivity. Qed.

Lemma silent_json_response (s : Z) (payload : list (string * value)) :
  silent (json_response s payload).
Proof. intros w t. reflexivity. Qed.

Lemma silent_early (s : Z) (payload : list (string * value)) :
  silent (bind (json_response s payload) (fun r => ret (Some r))).
Proof.
  intros w t. unfold bind, json_response, lift.
  destruct (new_Response _ s jsonHeaders); reflexivity.
Qed.

(** Step 1 always makes its one call, with the no-cache headers, and always
    reaches a verdict: nothing it does throws past its [catch]. *)
Lemma Step1_run (w : world) (identifier roll no : value) (t : trace) :
  exists early, Step1 identifier roll no w t = ((t ++ [payment_call])%list, Ok early).
Proof.
  unfold Step1, try_catch, bind, fetch.
  destruct (answer w PAYMENT_DB_URL) as [dbResponse|]; [|eexists; reflexivity].
  destruct (ok dbResponse); cbn [negb]; [|eexists; reflexivity].
  unfold response_json.
  destruct (up_json dbResponse) as [paymentData|]; unfold ret, lift; [|eexists; reflexivity].
  destruct paymentData; try (eexists; reflexivity).
  destruct (toLowerCase identifier) as [normalizedIdentifier|]; [|eexists; reflexivity].
  destruct (some _ items) as [[]|]; eexists; reflexivity.
Qed.


(** After its [fetch], the [try] block of either flow makes no further
    call, whatever the answer. *)
Lemma fetch_once {A : Type} (w : world) (url : string) (t : trace)
    (k : FetchResponse -> M A) (handler : exn -> M A) :
  (forall r, silent (k r)) -> (forall e, silent (handler e)) ->
  fst (try_catch (bind (fetch url []) k) handler w t) = (t ++ [GET url []])%list.
Proof.
  intros Hk Hh. unfold try_catch, bind, fetch.
  destruct (answer w url) as [r|].
  - specialize (Hk r w (t ++ [GET url []])%list).
    destruct (k r w (t ++ [GET url []])%list) as [t' [a|e]]; cbn in Hk; subst t'.
    + reflexivity.
    + apply Hh.
  - apply Hh.
Qed.

Lemma silent_errorText (apiResponse : FetchResponse) : silent (errorText apiResponse).
Proof. intros w t. now rewrite errorText_run. Qed.

Lemma silent_bind {A B : Type} (m : M A) (k : A -> M B) :
  silent m -> (forall a, silent (k a)) -> silent (bind m k).
Proof.
  intros Hm Hk w t. unfold bind. specialize (Hm w t).
  destruct (m w t) as [t' [a|e]]; cbn in Hm; subst t'; [apply Hk | reflexivity].
Qed.

Lemma silent_response_json (r : FetchResponse) : silent (response_json r).
Proof. intros w t. unfold response_json. destruct (up_json r); reflexivity. Qed.


Lemma Step2_after_fetch (apiResponse : FetchResponse) :
  silent
    (if negb (ok apiResponse)
     then bind (errorText apiResponse) (fun text =>
          let text := if up_status apiResponse =? 404 then J (JStr notFoundText) else text in
          json_response (if up_status apiResponse =? 404 then 500 else up_status apiResponse)
            [ ("message", text) ])
     else bind (response_json apiResponse) (fun resultData =>
          lift (new_Response (Some resultData) 200 jsonHeaders))).
Proof.
  destruct (negb (ok apiResponse)).
  - apply silent_bind; [apply silent_errorText | intros; apply silent_json_response].
  - apply silent_bind; [apply silent_response_json | intros; apply silent_lift].
Qed.

Lemma bind_lift {A B : Type} (r : result A) (k : A -> M B) (w : world) (t : trace) :
  bind (lift r) k w t =
  match r with
  | Ok a => k a w t
  | Throw e => (t, Throw e)
  end.
Proof. unfold bind, lift. destruct r; reflexivity. Qed.


(** X6.  The full-result flow calls the payment store first, with the
    no-cache headers, and the result API only after step 1 has let the
    request through: its calls are none (the body was refused), the
    payment-store call alone, or that call followed by one [GET] to the
    result-API path of the request's own fields, and the last only when the
    verdict of step 1 was to go on. *)
Theorem full_result_calls (w : world) (request : Request) :
  fst (run (handleFullResultRequest request) w) = [] \/
  fst (run (handleFullResultRequest request) w) = [payment_call] \/
  exists requestData identifier roll no registration url,
    request_body request = Some requestData /\
    full_fields requestData identifier roll no registration /\
    full_invalid identifier roll no registration = Ok false /\
    run (Step1 identifier roll no) w = ([payment_call], Ok None) /\
    apiUrl roll no registration = Ok url /\
    fst (run (handleFullResultRequest request) w) = [payment_call; GET url []].
Proof.
  unfold run.
  remember (fst (handleFullResultRequest request w [])) as calls eqn:Hcalls.
  unfold handleFullResultRequest in Hcalls.
  destruct (request_body request) as [requestData|]; [|now left].
  rewrite bind_lift in Hcalls.
  destruct (get (J requestData) "identifier") as [identifier|] eqn:Hi; [|now left].
  rewrite bind_lift in Hcalls.
  destruct (get (J requestData) "roll") as [roll|] eqn:Hr; [|now left].
  rewrite bind_lift in Hcalls.
  destruct (get (J requestData) "no") as [no|] eqn:Hn; [|now left].
  rewrite bind_lift in Hcalls.
  destruct (get (J requestData) "registration") as [registration|] eqn:Hg; [|now left].
  rewrite bind_lift in Hcalls.
  destruct (full_invalid identifier roll no registration) as [[]|] eqn:Hf; try now left.
  right. unfold bind at 1 in Hcalls.
  destruct (Step1_run w identifier roll no []) as [early H1]. rewrite H1 in Hcalls.
  destruct early as [response|]; [now left|].
  unfold Step2 in Hcalls. rewrite bind_lift in Hcalls.
  destruct (apiUrl roll no registration) as [url|] eqn:Hu; [|now left].
  right. exists requestData, identifier, roll, no, registration, url.
  repeat split; trivial.
  rewrite Hcalls. apply (fetch_once w url [payment_call]).
  - intros r. apply Step2_after_fetch.
  - intros e. apply silent_json_response.
Qed.

(** *** The payment gate *)

Lemma and_then_true (a b : result bool) :
  (a &&& b) = Ok true -> a = Ok true /\ b = Ok true.
Proof. destruct a as [[]|]; cbn; intros H; try discriminate. now split. Qed.

Lemma or_else_true (a b : result bool) :
  (a ||| b) = Ok true -> a = Ok true \/ b = Ok true.
Proof. destruct a as [[]|]; cbn; intros H; try discriminate; [now left | now right]. Qed.

Lemma some_true (A : Type) (f : A -> result bool) (l : list A) :
  some f l = Ok true -> exists x, In x l /\ f x = Ok true.
Proof.
  induction l as [|x l IH]; cbn; [discriminate|].
  destruct (f x) as [[]|] eqn:Hx; cbn; try discriminate.
  - intros _. exists x. split; [now left | exact Hx].
  - intros H. destruct (IH H) as (y & Hin & Hy). exists y. split; [now right | exact Hy].
Qed.

Lemma toLowerCase_ok (v : value) (s : string) :
  toLowerCase v = Ok s -> exists i, v = J (JStr i) /\ s = lower i.
Proof.
  destruct v as [|[]| |]; cbn; try discriminate.
  intros H. injection H as <-. now eexists.
Qed.

Lemma field_sound (p : value) (i : string) :
  (Ok (truthy p) &&& (let* lp := toLowerCase p in Ok (String.eqb lp (lower i)))) = Ok true ->
  same_ignoring_case p (J (JStr i)).
Proof.
  intros H. apply and_then_true in H as [_ H].
  destruct (toLowerCase p) as [lp|] eqn:Hp; [|discriminate].
  destruct (toLowerCase_ok _ _ Hp) as (f & -> & ->).
  cbn in H. injection H as H. apply String.eqb_eq in H. now exists f, i.
Qed.

(** Whatever the record is, the callback answers [true] only on a match. *)
Lemma isMatch_sound (identifier roll no : value) (norm : string) (record : json) :
  toLowerCase identifier = Ok norm ->
  isMatch identifier roll no norm record = Ok true ->
  record_matches identifier roll no record.
Proof.
  intros Hl H. destruct (toLowerCase_ok _ _ Hl) as (i & -> & ->).
  unfold isMatch in H.
  apply and_then_true in H as [H H3]. apply and_then_true in H as [H1 H2].
  destruct (get (J record) "roll") as [r|] eqn:Hr; [|discriminate].
  destruct (get (J record) "no") as [n|] eqn:Hn; [|discriminate].
  destruct (get_total record "roll" "payment_id" r Hr) as [p Hp].
  destruct (get_total record "roll" "email" r Hr) as [e He].
  destruct (get_total record "roll" "phone" r Hr) as [ph Hph].
  rewrite Hp, He, Hph in H3. cbn [rbind] in *.
  injection H1 as H1. injection H2 as H2.
  exists r, n, p, e, ph. repeat (split; [assumption|]).
  apply or_else_true in H3 as [H3 | H3]; [apply or_else_true in H3 as [H3 | H3]|].
  - left. now apply field_sound.
  - right; left. now apply field_sound.
  - right; right. apply and_then_true in H3 as [_ H3]. now injection H3.
Qed.

Lemma Step1_pass (w : world) (identifier roll no : value) (t t' : trace) :
  Step1 identifier roll no w t = (t', Ok None) ->
  verified_by w identifier roll no.
Proof.
  unfold Step1, try_catch, bind, fetch.
  destruct (answer w PAYMENT_DB_URL) as [dbResponse|] eqn:Ha; [|discriminate].
  destruct (ok dbResponse) eqn:Hok; cbn [negb]; [|discriminate].
  unfold response_json.
  destruct (up_json dbResponse) as [paymentData|] eqn:Hj; unfold ret, lift; [|discriminate].
  destruct paymentData; try discriminate.
  destruct (toLowerCase identifier) as [norm|] eqn:Hl; [|discriminate].
  destruct (some _ items) as [[]|] eqn:Hs; try discriminate.
  intros _. destruct (some_true _ _ _ Hs) as (record & Hin & Hm).
  exists dbResponse, items, record. repeat (split; [trivial|]).
  now apply (isMatch_sound identifier roll no norm).
Qed.






Lemma full_flow_steps (w : world) (request : Request) (requestData : json)
    (identifier roll no registration : value) :
  request_body request = Some requestData ->
  full_fields requestData identifier roll no registration ->
  full_invalid identifier roll no registration = Ok false ->
  run (handleFullResultRequest request) w =
    after_step1 (run (Step1 identifier roll no) w) (Step2 roll no registration) w.
Proof.
  intros Hb (Hi & Hr & Hn & Hg) Hf.
  unfold run, handleFullResultRequest. rewrite Hb.
  rewrite bind_lift, Hi, bind_lift, Hr, bind_lift, Hn, bind_lift, Hg, bind_lift, Hf.
  unfold bind, after_step1.
  destruct (Step1 identifier roll no w []) as [t [[response|]|e]]; reflexivity.
Qed.

(** X8.  For a validated full-result request, a payment store that cannot
    be used ends the flow after the one call to it: a failure status is
    answered 503 "(DB Error)", no answer at all or a success status without
    a JSON body is answered 500 "Error during payment verification."  The
    result API is not called. *)
Theorem payment_store_failures (w : world) (request : Request) (requestData : json)
    (identifier roll no registration : value) :
  request_body request = Some requestData ->
  full_fields requestData identifier roll no registration ->
  full_invalid identifier roll no registration = Ok false ->
  (answer w PAYMENT_DB_URL = None ->
   run (handleFullResultRequest request) w = ([payment_call], Ok verification_error_500)) /\
  (forall dbResponse,
     answer w PAYMENT_DB_URL = Some dbResponse -> ok dbResponse = false ->
     run (handleFullResultRequest request) w = ([payment_call], Ok store_unavailable_503)) /\
  (forall dbResponse,
     answer w PAYMENT_DB_URL = Some dbResponse -> ok dbResponse = true ->
     up_json dbResponse = None ->
     run (handleFullResultRequest request) w = ([payment_call], Ok verification_error_500)).
Proof.
  intros Hb Hfields Hf.
  rewrite (full_flow_steps w request requestData identifier roll no registration Hb Hfields Hf).
  unfold run, Step1, try_catch, bind, fetch. repeat split.
  - intros ->. reflexivity.
  - intros db -> ->. reflexivity.
  - intros db -> -> Hj. cbn [negb]. unfold response_json. rewrite Hj. reflexivity.
Qed.

Lemma payment_store_failures_witness :
  let request := Examples.post "/api/full-result" Examples.paid_request in
  run (handleFullResultRequest request) Examples.offline
    = ([payment_call], Ok verification_error_500) /\
  run (handleFullResultRequest request)
      (Examples.services Examples.store_down Examples.result_found)
    = ([payment_call], Ok store_unavailable_503) /\
  run (handleFullResultRequest request)
      (Examples.services html_page Examples.result_found)
    = ([payment_call], Ok verification_error_500).
Proof.
  intros request.
  assert (Hfields : full_fields Examples.paid_request (J (JStr "Test@X.com"))
                      (J (JStr "123456")) (J (JStr "1234")) (J (JStr "REG1")))
    by (repeat split; reflexivity).
  split; [|split].
  - destruct (payment_store_failures Examples.offline request _ _ _ _ _
                eq_refl Hfields eq_refl) as (H & _ & _).
    exact (H eq_refl).
  - destruct (payment_store_failures
                (Examples.services Examples.store_down Examples.result_found) request
                _ _ _ _ _ eq_refl Hfields eq_refl) as (_ & H & _).
    exact (H Examples.store_down eq_refl eq_refl).
  - destruct (payment_store_failures
                (Examples.services html_page Examples.result_found) request
                _ _ _ _ _ eq_refl Hfields eq_refl) as (_ & _ & H).
    exact (H html_page eq_refl eq_refl eq_refl).
Defined.

(** *** The order of the scan *)

Lemma some_app (A : Type) (f : A -> result bool) (l1 l2 : list A) :
  some f l1 = Ok false -> some f (l1 ++ l2) = some f l2.
Proof.
  induction l1 as [|x l1 IH]; cbn; [reflexivity|].
  destruct (f x) as [[]|]; cbn; try discriminate. exact IH.
Qed.

Lemma some_unmatched (i : string) (roll no : value) (records : list json) :
  i <> "" -> Forall well_formed_record records ->
  (forall record, In record records -> ~ record_matches (J (JStr i)) roll no record) ->
  some (isMatch (J (JStr i)) roll no (lower i)) records = Ok false.
Proof.
  intros Hi Hwf Hnone.
  destruct (some_spec i roll no records Hi Hwf) as ([] & Hs & Hb); [|exact Hs].
  destruct Hb as [Hb _]. destruct (Hb eq_refl) as (x & Hin & Hx).
  now elim (Hnone x Hin).
Qed.

Lemma Step1_scan (w : world) (i : string) (roll no : value) (dbResponse : FetchResponse)
    (records : list json) :
  answer w PAYMENT_DB_URL = Some dbResponse ->
  ok dbResponse = true ->
  up_json dbResponse = Some (JArr records) ->
  run (Step1 (J (JStr i)) roll no) w =
    ([payment_call],
     match some (isMatch (J (JStr i)) roll no (lower i)) records with
     | Ok true => Ok None
     | Ok false => Ok (Some verification_failed_403)
     | Throw _ => Ok (Some verification_error_500)
     end).
Proof.
  intros Ha Hok Hj.
  unfold run, Step1, try_catch, bind, fetch. rewrite Ha, Hok. cbn [negb].
  unfold response_json. rewrite Hj. unfold ret, lift. cbn [toLowerCase].
  destruct (some _ records) as [[]|]; reflexivity.
Qed.

(** X9.  The first match wins.  With a string identifier, once the records
    ahead of a well-formed matching record are well-formed and do not match,
    verification passes, whatever follows that record in the list: later
    entries are not looked at, be they [null] or other non-records. *)
Theorem first_match_wins (w : world) (i : string) (roll no : value)
    (dbResponse : FetchResponse) (before : list json) (hit : json) (rest : list json) :
  i <> "" ->
  answer w PAYMENT_DB_URL = Some dbResponse ->
  ok dbResponse = true ->
  up_json dbResponse = Some (JArr (before ++ hit :: rest)) ->
  Forall well_formed_record before ->
  (forall record, In record before -> ~ record_matches (J (JStr i)) roll no record) ->
  well_formed_record hit ->
  record_matches (J (JStr i)) roll no hit ->
  run (Step1 (J (JStr i)) roll no) w = ([payment_call], Ok None).
Proof.
  intros Hi Ha Hok Hj Hwf Hnone Hhit Hm.
  rewrite (Step1_scan w i roll no dbResponse _ Ha Hok Hj).
  rewrite some_app by now apply some_unmatched.
  destruct (isMatch_spec i roll no hit Hi Hhit) as (b & Eb & Hb).
  apply Hb in Hm. subst b. cbn [some]. rewrite Eb. reflexivity.
Qed.

Lemma first_match_wins_witness :
  let w := Examples.services
             (Examples.payments [Examples.other_record; Examples.paid_record; JNull])
             Examples.result_found in
  well_formed_record Examples.paid_record /\
  record_matches (J (JStr "Test@X.com")) (J (JStr "123456")) (J (JStr "1234"))
    Examples.paid_record /\
  run (Step1 (J (JStr "Test@X.com")) (J (JStr "123456")) (J (JStr "1234"))) w
    = ([payment_call], Ok None).
Proof.
  intros w.
  assert (Hwf : forall record, In record [Examples.other_record; Examples.paid_record] ->
                  well_formed_record record).
  { intros record [<- | [<- | []]]; eexists; eexists;
      (split; [reflexivity | split; [| split; [reflexivity |]]]);
      first [left; reflexivity | right; reflexivity]. }
  assert (Hm : record_matches (J (JStr "Test@X.com")) (J (JStr "123456")) (J (JStr "1234"))
                 Examples.paid_record).
  { exists (J (JStr "123456")), (J (JStr "1234")), Undefined, (J (JStr "test@x.COM")), Undefined.
    repeat (split; [reflexivity|]). right; left.
    exists "test@x.COM", "Test@X.com". repeat split. }
  split; [apply Hwf; right; now left | split; [exact Hm |]].
  apply (first_match_wins w "Test@X.com" (J (JStr "123456")) (J (JStr "1234"))
           (Examples.payments [Examples.other_record; Examples.paid_record; JNull])
           [Examples.other_record] Examples.paid_record [JNull]);
    try reflexivity; try discriminate; trivial.
  - constructor; [apply Hwf; now left | constructor].
  - intros record [<- | []] (r & n & p & e & ph & _ & _ & Hn & Hno & _).
    cbn in Hn. injection Hn as <-. discriminate Hno.
  - apply Hwf. right; now left.
Defined.

(** X10.  A [null] entry reached by the scan ends it: when the records
    ahead of it are well-formed and do not match, the flow's verdict is 500
    "Error during payment verification.", even if a matching record comes
    later in the list. *)
Theorem null_entry_stops_scan (w : world) (i : string) (roll no : value)
    (dbResponse : FetchResponse) (before rest : list json) :
  i <> "" ->
  answer w PAYMENT_DB_URL = Some dbResponse ->
  ok dbResponse = true ->
  up_json dbResponse = Some (JArr (before ++ JNull :: rest)) ->
  Forall well_formed_record before ->
  (forall record, In record before -> ~ record_matches (J (JStr i)) roll no record) ->
  run (Step1 (J (JStr i)) roll no) w = ([payment_call], Ok (Some verification_error_500)).
Proof.
  intros Hi Ha Hok Hj Hwf Hnone.
  rewrite (Step1_scan w i roll no dbResponse _ Ha Hok Hj).
  rewrite some_app by now apply some_unmatched.
  reflexivity.
Qed.

Lemma null_entry_stops_scan_witness :
  let w := Examples.services (Examples.payments [JNull; Examples.paid_record])
             Examples.result_found in
  run (Step1 (J (JStr "Test@X.com")) (J (JStr "123456")) (J (JStr "1234"))) w
    = ([payment_call], Ok (Some verification_error_500)).
Proof.
  intros w.
  apply (null_entry_stops_scan w "Test@X.com" (J (JStr "123456")) (J (JStr "1234"))
           (Examples.payments [JNull; Examples.paid_record]) [] [Examples.paid_record]);
    try reflexivity; try discriminate; [constructor | intros record []].
Defined.

Lemma strict_equals_reference (r v : value) :
  is_reference v = true -> strict_equals r v = false.
Proof.
  destruct v as [|[]| |]; cbn; try discriminate; intros _;
    destruct r as [|[]| |]; reflexivity.
Qed.

(** X11.  A request whose [roll] or [no] is an array or an object is never
    verified, whatever the payment store holds: [===] between a record's
    field and such a value is a comparison of references, and the two come
    from different parses.  (An array such as [[123456]] does pass the field
    test, which converts it to a string.) *)
Theorem reference_roll_never_verified (w : world) (identifier roll no : value) (t : trace) :
  is_reference roll = true \/ is_reference no = true ->
  run (Step1 identifier roll no) w <> (t, Ok None).
Proof.
  intros Href H1. unfold run in H1.
  destruct (Step1_pass _ _ _ _ _ _ H1)
    as (db & records & record & _ & _ & _ & _ & Hm).
  destruct Hm as (r & n & p & e & ph & _ & Hr & _ & Hn & _).
  destruct Href as [Href | Href].
  - rewrite (strict_equals_reference r roll Href) in Hr. discriminate.
  - rewrite (strict_equals_reference n no Href) in Hn. discriminate.
Qed.

Lemma reference_roll_never_verified_witness :
  let w := Examples.services (Examples.payments [array_roll_record]) Examples.result_found in
  let roll := J (JArr [JNum 123456]) in
  full_invalid (J (JStr "Test@X.com")) roll (J (JStr "1234")) (J (JStr "REG1")) = Ok false /\
  run (Step1 (J (JStr "Test@X.com")) roll (J (JStr "1234"))) w <> ([payment_call], Ok None) /\
  run (handleFullResultRequest (Examples.post "/api/full-result" array_roll_request)) w
    = ([payment_call], Ok verification_failed_403).
Proof.
  intros w roll. split; [reflexivity | split; [| reflexivity]].
  apply (reference_roll_never_verified w (J (JStr "Test@X.com")) roll (J (JStr "1234"))).
  left. reflexivity.
Defined.

(** *** The result API *)

Lemma details_flow_steps (w : world) (request : Request) (requestData : json)
    (roll no registration referralKey button : value) (url : string) :
  request_body request = Some requestData ->
  details_fields requestData roll no registration referralKey ->
  valid_query roll no registration ->
  paymentButtonIdToUse referralKey = Ok button ->
  apiUrl roll no registration = Ok url ->
  run (handleDetailsRequest request) w =
    match answer w url with
    | None => ([GET url []], Ok details_502)
    | Some apiResponse =>
        if ok apiResponse
        then match up_json apiResponse with
             | None => ([GET url []], Ok details_502)
             | Some data =>
                 match get (J data) "name", get (J data) "ROll_No", get (J data) "Reg_No" with
                 | Ok name, Ok rollNo, Ok regNo =>
                     ([GET url []],
                      Ok (mkResponse 200 jsonHeaders
                            (Some (JSON_stringify
                                     [ ("name", name); ("rollNo", rollNo); ("regNo", regNo);
                                       ("paymentButtonId", button) ]))))
                 | _, _, _ => ([GET url []], Ok details_502)
                 end
             end
        else match new_Response
                     (Some (JSON_stringify [ ("message", upstream_message apiResponse) ]))
                     (up_status apiResponse) jsonHeaders with
             | Ok response => ([GET url []], Ok response)
             | Throw _ => ([GET url []], Ok details_502)
             end
    end.
Proof.
  intros Hb (Hr & Hn & Hg & Hk) Hv Hbtn Hu.
  apply details_invalid_spec in Hv.
  unfold run, handleDetailsRequest. rewrite Hb.
  rewrite bind_lift, Hr, bind_lift, Hn, bind_lift, Hg, bind_lift, Hk.
  rewrite bind_lift, Hv, bind_lift, Hbtn, bind_lift, Hu.
  unfold try_catch, bind, fetch.
  destruct (answer w url) as [apiResponse|]; [|reflexivity].
  destruct (ok apiResponse); cbn [negb].
  - unfold response_json.
    destruct (up_json apiResponse) as [data|]; unfold ret, lift; [|reflexivity].
    destruct (get (J data) "name") as [name|]; [|reflexivity].
    destruct (get (J data) "ROll_No") as [rollNo|]; [|reflexivity].
    destruct (get (J data) "Reg_No") as [regNo|]; reflexivity.
  - rewrite errorText_run. unfold json_response, lift.
    destruct (new_Response _ _ jsonHeaders); reflexivity.
Qed.

Lemma new_Response_refused (j : json) (s : Z) (h : headers) :
  ~ constructible s -> exists e, new_Response (Some j) s h = Throw e.
Proof.
  intros Hn. unfold new_Response.
  destruct ((s <? 200) || (599 <? s)) eqn:Hrange; [eexists; reflexivity|].
  destruct (null_body_status s) eqn:Hnull; [eexists; reflexivity|].
  exfalso. apply Hn. apply orb_false_elim in Hrange as [H1 H2].
  split; [lia | exact Hnull].
Qed.

(** X12.  The details flow passes a failure of the result API on as it is:
    a non-success status that can be re-emitted is answered with that same
    status, 404 included (only the full-result flow rewrites it), and with
    the upstream message or the "API Error" fallback. *)
Theorem details_failure_forwarded (w : world) (request : Request) (requestData : json)
    (roll no registration referralKey button : value) (url : string)
    (apiResponse : FetchResponse) :
  request_body request = Some requestData ->
  details_fields requestData roll no registration referralKey ->
  valid_query roll no registration ->
  paymentButtonIdToUse referralKey = Ok button ->
  apiUrl roll no registration = Ok url ->
  answer w url = Some apiResponse ->
  ok apiResponse = false ->
  constructible (up_status apiResponse) ->
  run (handleDetailsRequest request) w =
    ([GET url []],
     Ok (mkResponse (up_status apiResponse) jsonHeaders
           (Some (JSON_stringify [ ("message", upstream_message apiResponse) ])))).
Proof.
  intros Hb Hfields Hv Hbtn Hu Ha Hok Hc.
  rewrite (details_flow_steps w request requestData roll no registration referralKey
             button url Hb Hfields Hv Hbtn Hu).
  rewrite Ha, Hok, new_Response_constructible by exact Hc. reflexivity.
Qed.

Lemma details_failure_forwarded_witness :
  let w := Examples.services Examples.no_payments Examples.not_found in
  let request := Examples.post "/api/details" Examples.koyel_referral in
  constructible 404 /\
  run (handleDetailsRequest request) w =
    ([GET (BOARD_API_BASE_URL ++ "/1234561234/REG1") []],
     Ok (message_response 404 "No such roll")).
Proof.
  intros w request.
  assert (Hc : constructible 404) by (split; [lia | reflexivity]).
  split; [exact Hc|].
  assert (Hv : valid_query (J (JStr "123456")) (J (JStr "1234")) (J (JStr " REG1 "))).
  { repeat split. exists " REG1 ". split; [reflexivity | discriminate]. }
  assert (Hfields : details_fields Examples.koyel_referral (J (JStr "123456")) (J (JStr "1234"))
                      (J (JStr " REG1 ")) (J (JStr "Koyel")))
    by (repeat split; reflexivity).
  exact (details_failure_forwarded w request _ _ _ _ _ (J (JStr "pl_QMWdxwIPVZYTpi"))
           (BOARD_API_BASE_URL ++ "/1234561234/REG1") Examples.not_found
           eq_refl Hfields Hv eq_refl eq_refl eq_refl eq_refl Hc).
Defined.

(** X13.  In the details flow, a result API that delivers nothing that can
    be passed on (no answer, a success status without a JSON body, or a
    failure status outside what a response can carry) is answered 502
    "Failed to connect to the results service." after the one call. *)
Theorem details_undeliverable_502 (w : world) (request : Request) (requestData : json)
    (roll no registration referralKey button : value) (url : string) :
  request_body request = Some requestData ->
  details_fields requestData roll no registration referralKey ->
  valid_query roll no registration ->
  paymentButtonIdToUse referralKey = Ok button ->
  apiUrl roll no registration = Ok url ->
  undeliverable w url ->
  run (handleDetailsRequest request) w = ([GET url []], Ok details_502).
Proof.
  intros Hb Hfields Hv Hbtn Hu Hun.
  rewrite (details_flow_steps w request requestData roll no registration referralKey
             button url Hb Hfields Hv Hbtn Hu).
  destruct Hun as [-> | (apiResponse & -> & [[-> ->] | [-> Hc]])]; try reflexivity.
  destruct (new_Response_refused
              (JSON_stringify [ ("message", upstream_message apiResponse) ])
              (up_status apiResponse) jsonHeaders Hc) as [e ->].
  reflexivity.
Qed.

Lemma details_undeliverable_502_witness :
  let w := Examples.services Examples.no_payments Examples.not_modified in
  let request := Examples.post "/api/details" Examples.koyel_referral in
  undeliverable w (BOARD_API_BASE_URL ++ "/1234561234/REG1") /\
  run (handleDetailsRequest request) w =
    ([GET (BOARD_API_BASE_URL ++ "/1234561234/REG1") []], Ok details_502).
Proof.
  intros w request.
  assert (Hun : undeliverable w (BOARD_API_BASE_URL ++ "/1234561234/REG1")).
  { right. exists Examples.not_modified. split; [reflexivity|]. right.
    split; [reflexivity|]. intros [_ H]. discriminate H. }
  split; [exact Hun|].
  assert (Hv : valid_query (J (JStr "123456")) (J (JStr "1234")) (J (JStr " REG1 "))).
  { repeat split. exists " REG1 ". split; [reflexivity | discriminate]. }
  assert (Hfields : details_fields Examples.koyel_referral (J (JStr "123456")) (J (JStr "1234"))
                      (J (JStr " REG1 ")) (J (JStr "Koyel")))
    by (repeat split; reflexivity).
  exact (details_undeliverable_502 w request _ _ _ _ _ (J (JStr "pl_QMWdxwIPVZYTpi"))
           (BOARD_API_BASE_URL ++ "/1234561234/REG1")
           eq_refl Hfields Hv eq_refl eq_refl Hun).
Defined.

Lemma Step2_steps (w : world) (roll no registration : value) (url : string) (t : trace) :
  apiUrl roll no registration = Ok url ->
  Step2 roll no registration w t =
    match answer w url with
    | None => ((t ++ [GET url []])%list, Ok full_502)
    | Some apiResponse =>
        if ok apiResponse
        then match up_json apiResponse with
             | None => ((t ++ [GET url []])%list, Ok full_502)
             | Some resultData =>
                 ((t ++ [GET url []])%list, Ok (mkResponse 200 jsonHeaders (Some resultData)))
             end
        else match new_Response
                     (Some (JSON_stringify
                              [ ("message",
                                 if up_status apiResponse =? 404
                                 then J (JStr notFoundText)
                                 else upstream_message apiResponse) ]))
                     (if up_status apiResponse =? 404 then 500 else up_status apiResponse)
                     jsonHeaders with
             | Ok response => ((t ++ [GET url []])%list, Ok response)
             | Throw _ => ((t ++ [GET url []])%list, Ok full_502)
             end
    end.
Proof.
  intros Hu. unfold Step2. rewrite bind_lift, Hu.
  unfold try_catch, bind, fetch.
  destruct (answer w url) as [apiResponse|]; [|reflexivity].
  destruct (ok apiResponse); cbn [negb].
  - unfold response_json.
    destruct (up_json apiResponse) as [resultData|]; reflexivity.
  - rewrite errorText_run. unfold json_response, lift.
    destruct (new_Response _ _ jsonHeaders); reflexivity.
Qed.

(** X14.  In the full-result flow, once verification has passed, a result
    API that delivers nothing that can be passed on is answered 502 "Failed
    to connect to the results service for full details." *)
Theorem full_undeliverable_502 (w : world) (request : Request) (requestData : json)
    (identifier roll no registration : value) (t1 : trace) (url : string) :
  request_body request = Some requestData ->
  full_fields requestData identifier roll no registration ->
  full_invalid identifier roll no registration = Ok false ->
  run (Step1 identifier roll no) w = (t1, Ok None) ->
  apiUrl roll no registration = Ok url ->
  undeliverable w url ->
  run (handleFullResultRequest request) w = ((t1 ++ [GET url []])%list, Ok full_502).
Proof.
  intros Hb Hfields Hf H1 Hu Hun.
  rewrite (full_flow_steps w request requestData identifier roll no registration Hb Hfields Hf).
  rewrite H1. unfold after_step1. rewrite (Step2_steps w roll no registration url t1 Hu).
  destruct Hun as [-> | (apiResponse & -> & [[-> ->] | [Hok Hc]])]; try reflexivity.
  rewrite Hok.
  destruct (up_status apiResponse =? 404) eqn:E404.
  - exfalso. apply Hc. apply Z.eqb_eq in E404. rewrite E404. split; [lia | reflexivity].
  - destruct (new_Response_refused
                (JSON_stringify [ ("message", upstream_message apiResponse) ])
                (up_status apiResponse) jsonHeaders Hc) as [e ->].
    reflexivity.
Qed.

Lemma full_undeliverable_502_witness :
  let w := Examples.services (Examples.payments [Examples.paid_record]) html_page in
  let request := Examples.post "/api/full-result" Examples.paid_request in
  undeliverable w (BOARD_API_BASE_URL ++ "/1234561234/REG1") /\
  run (handleFullResultRequest request) w =
    ([payment_call; GET (BOARD_API_BASE_URL ++ "/1234561234/REG1") []], Ok full_502).
Proof.
  intros w request.
  assert (Hun : undeliverable w (BOARD_API_BASE_URL ++ "/1234561234/REG1")).
  { right. exists html_page. split; [reflexivity|]. left. split; reflexivity. }
  split; [exact Hun|].
  assert (Hfields : full_fields Examples.paid_request (J (JStr "Test@X.com"))
                      (J (JStr "123456")) (J (JStr "1234")) (J (JStr "REG1")))
    by (repeat split; reflexivity).
  exact (full_undeliverable_502 w request _ _ _ _ _ [payment_call]
           (BOARD_API_BASE_URL ++ "/1234561234/REG1")
           eq_refl Hfields eq_refl eq_refl eq_refl Hun).
Defined.

(** X15.  In the full-result flow, once verification has passed, a success
    answer of the result API with a JSON body is passed on whole: status 200
    and the upstream document itself, no field renamed or dropped. *)
Theorem verified_result_forwarded (w : world) (request : Request) (requestData : json)
    (identifier roll no registration : value) (t1 : trace) (url : string)
    (apiResponse : FetchResponse) (resultData : json) :
  request_body request = Some requestData ->
  full_fields requestData identifier roll no registration ->
  full_invalid identifier roll no registration = Ok false ->
  run (Step1 identifier roll no) w = (t1, Ok None) ->
  apiUrl roll no registration = Ok url ->
  answer w url = Some apiResponse ->
  ok apiResponse = true ->
  up_json apiResponse = Some resultData ->
  run (handleFullResultRequest request) w =
    ((t1 ++ [GET url []])%list, Ok (mkResponse 200 jsonHeaders (Some resultData))).
Proof.
  intros Hb Hfields Hf H1 Hu Ha Hok Hj.
  rewrite (full_flow_steps w request requestData identifier roll no registration Hb Hfields Hf).
  rewrite H1. unfold after_step1. rewrite (Step2_steps w roll no registration url t1 Hu).
  rewrite Ha, Hok, Hj. reflexivity.
Qed.

Lemma verified_result_forwarded_witness :
  let w := Examples.services (Examples.payments [Examples.paid_record]) Examples.result_found in
  let request := Examples.post "/api/full-result" Examples.paid_request in
  ok Examples.result_found = true /\
  run (handleFullResultRequest request) w =
    ([payment_call; GET (BOARD_API_BASE_URL ++ "/1234561234/REG1") []],
     Ok (mkResponse 200 jsonHeaders
           (Some (JObj [ ("name", JStr "A"); ("ROll_No", JStr "1234561234") ])))).
Proof.
  intros w request. split; [reflexivity|].
  assert (Hfields : full_fields Examples.paid_request (J (JStr "Test@X.com"))
                      (J (JStr "123456")) (J (JStr "1234")) (J (JStr "REG1")))
    by (repeat split; reflexivity).
  exact (verified_result_forwarded w request _ _ _ _ _ [payment_call]
           (BOARD_API_BASE_URL ++ "/1234561234/REG1") Examples.result_found _
           eq_refl Hfields eq_refl eq_refl eq_refl eq_refl eq_refl eq_refl).
Defined.

(** *** The referral key, again *)

(** X16.  The referral lookup ignores case: two string keys with the same
    lower-casing resolve to the same button id. *)
Theorem referral_ignores_case (k1 k2 : string) :
  lower k1 = lower k2 ->
  paymentButtonIdToUse (J (JStr k1)) = paymentButtonIdToUse (J (JStr k2)).
Proof.
  intros Hl. unfold paymentButtonIdToUse, and_then, rbind. cbn [toLowerCase truthy].
  rewrite Hl.
  destruct k1 as [|c1 k1], k2 as [|c2 k2]; try reflexivity; discriminate Hl.
Qed.

Lemma referral_ignores_case_witness :
  paymentButtonIdToUse (J (JStr "KoYeL")) = paymentButtonIdToUse (J (JStr "koyel")) /\
  paymentButtonIdToUse (J (JStr "koyel")) = Ok (J (JStr "pl_QMWdxwIPVZYTpi")).
Proof.
  split; [|reflexivity].
  apply (referral_ignores_case "KoYeL" "koyel"). reflexivity.
Defined.





Lemma apiUrl_total (roll no registration : value) :
  valid_query roll no registration -> exists url, apiUrl roll no registration = Ok url.
Proof.
  intros (H6 & H4 & g & -> & _). unfold apiUrl, add.
  destruct (valid_primitive 6 roll H6) as [[n ->] | (pr & Pr & _)];
    destruct (valid_primitive 4 no H4) as [[m ->] | (pn & Pn & _)];
    try rewrite Pr; try rewrite Pn; eexists; reflexivity.
Qed.

(** *** Exceptions *)

Lemma Step2_answers (w : world) (roll no registration : value) (url : string) (t : trace) :
  apiUrl roll no registration = Ok url ->
  exists response, Step2 roll no registration w t = ((t ++ [GET url []])%list, Ok response).
Proof.
  intros Hu. rewrite (Step2_steps w roll no registration url t Hu).
  destruct (answer w url) as [apiResponse|]; [|eexists; reflexivity].
  destruct (ok apiResponse).
  - destruct (up_json apiResponse); eexists; reflexivity.
  - destruct (new_Response _ _ jsonHeaders); eexists; reflexivity.
Qed.

(** X19.  Once the fields of a full-result request have been read and
    tested without an exception, none escapes the flow: whatever the two
    services answer or fail to answer, and whatever the payment records
    hold, the flow returns a response of its own.  (Only reading the fields
    of a [null] body, or converting an unconvertible [roll] or [no], can
    throw out of this flow.) *)
Theorem full_result_answers (w : world) (request : Request) (requestData : json)
    (identifier roll no registration : value) (invalid : bool) :
  request_body request = Some requestData ->
  full_fields requestData identifier roll no registration ->
  full_invalid identifier roll no registration = Ok invalid ->
  exists t response, run (handleFullResultRequest request) w = (t, Ok response).
Proof.
  intros Hb Hfields Hf. destruct invalid.
  - destruct Hfields as (Hi & Hr & Hn & Hg).
    unfold run, handleFullResultRequest. rewrite Hb.
    rewrite bind_lift, Hi, bind_lift, Hr, bind_lift, Hn, bind_lift, Hg, bind_lift, Hf.
    eexists _, _. reflexivity.
  - rewrite (full_flow_steps w request requestData identifier roll no registration
               Hb Hfields Hf).
    unfold run. destruct (Step1_run w identifier roll no []) as [early ->].
    unfold after_step1. destruct early as [response|]; [eexists _, _; reflexivity|].
    rewrite full_invalid_details in Hf.
    destruct (truthy identifier); [|discriminate].
    apply details_invalid_spec, apiUrl_total in Hf. destruct Hf as [url Hu].
    destruct (Step2_answers w roll no registration url ([] ++ [payment_call])%list Hu)
      as [response ->].
    eexists _, _. reflexivity.
Qed.

Lemma full_result_answers_witness :
  exists t response,
    run (handleFullResultRequest (Examples.post "/api/full-result" Examples.paid_request))
        Examples.offline = (t, Ok response).
Proof.
  assert (Hfields : full_fields Examples.paid_request (J (JStr "Test@X.com"))
                      (J (JStr "123456")) (J (JStr "1234")) (J (JStr "REG1")))
    by (repeat split; reflexivity).
  exact (full_result_answers Examples.offline
           (Examples.post "/api/full-result" Examples.paid_request) _ _ _ _ _ false
           eq_refl Hfields eq_refl).
Defined.

(** X20.  Likewise in the details flow, provided the referral key is a
    string or falsy: once the fields have been read and tested, the flow
    returns a response whatever the result API does. *)
Theorem details_answers (w : world) (request : Request) (requestData : json)
    (roll no registration referralKey : value) (invalid : bool) :
  request_body request = Some requestData ->
  details_fields requestData roll no registration referralKey ->
  details_invalid roll no registration = Ok invalid ->
  string_or_falsy referralKey ->
  exists t response, run (handleDetailsRequest request) w = (t, Ok response).
Proof.
  intros Hb Hfields Hf Hk. destruct invalid.
  - destruct Hfields as (Hr & Hn & Hg & Hkey).
    unfold run, handleDetailsRequest. rewrite Hb.
    rewrite bind_lift, Hr, bind_lift, Hn, bind_lift, Hg, bind_lift, Hkey, bind_lift, Hf.
    eexists _, _. reflexivity.
  - apply details_invalid_spec in Hf.
    assert (Hbtn : exists button, paymentButtonIdToUse referralKey = Ok button).
    { destruct Hk as [Hk | Hk].
      - rewrite referral_absent by exact Hk. now eexists.
      - destruct (typeof_string referralKey) as [k ->]; [rewrite Hk; reflexivity|].
        unfold paymentButtonIdToUse, and_then, rbind. cbn [toLowerCase].
        destruct (truthy (J (JStr k))); [|now eexists].
        destruct (truthy (lookup referralButtonMap (lower k))); now eexists. }
    destruct Hbtn as [button Hbtn].
    destruct (apiUrl_total roll no registration Hf) as [url Hu].
    rewrite (details_flow_steps w request requestData roll no registration referralKey
               button url Hb Hfields Hf Hbtn Hu).
    destruct (answer w url) as [apiResponse|]; [|eexists _, _; reflexivity].
    destruct (ok apiResponse).
    + destruct (up_json apiResponse) as [data|]; [|eexists _, _; reflexivity].
      destruct (get (J data) "name"), (get (J data) "ROll_No"), (get (J data) "Reg_No");
        eexists _, _; reflexivity.
    + destruct (new_Response _ _ jsonHeaders); eexists _, _; reflexivity.
Qed.

Lemma details_answers_witness :
  exists t response,
    run (handleDetailsRequest (Examples.post "/api/details" Examples.koyel_referral))
        Examples.offline = (t, Ok response).
Proof.
  assert (Hfields : details_fields Examples.koyel_referral (J (JStr "123456")) (J (JStr "1234"))
                      (J (JStr " REG1 ")) (J (JStr "Koyel")))
    by (repeat split; reflexivity).
  assert (Hk : string_or_falsy (J (JStr "Koyel"))) by (right; reflexivity).
  exact (details_answers Examples.offline
           (Examples.post "/api/details" Examples.koyel_referral) _ _ _ _ _ false
           eq_refl Hfields eq_refl Hk).
Defined.

(** *** Case rules, field by field *)



(** *** What the flows read *)

(** X22.  Each flow depends on the body only through the fields it reads:
    two bodies that agree on [roll], [no], [registration] and [referralKey]
    get the same answer from the details flow after the same calls, and two
    that agree on [identifier], [roll], [no] and [registration] the same
    answer from the full-result flow, whatever else they hold. *)
Theorem other_fields_ignored (w : world) (request1 request2 : Request)
    (requestData1 requestData2 : json) (a b c d : value) :
  request_body request1 = Some requestData1 ->
  request_body request2 = Some requestData2 ->
  (details_fields requestData1 a b c d -> details_fields requestData2 a b c d ->
   run (handleDetailsRequest request1) w = run (handleDetailsRequest request2) w) /\
  (full_fields requestData1 a b c d -> full_fields requestData2 a b c d ->
   run (handleFullResultRequest request1) w = run (handleFullResultRequest request2) w).
Proof.
  intros Hb1 Hb2. split.
  - intros (Hr1 & Hn1 & Hg1 & Hk1) (Hr2 & Hn2 & Hg2 & Hk2).
    unfold run, handleDetailsRequest. rewrite Hb1, Hb2.
    rewrite !bind_lift, Hr1, Hr2, !bind_lift, Hn1, Hn2, !bind_lift, Hg1, Hg2.
    rewrite !bind_lift, Hk1, Hk2. reflexivity.
  - intros (Hi1 & Hr1 & Hn1 & Hg1) (Hi2 & Hr2 & Hn2 & Hg2).
    unfold run, handleFullResultRequest. rewrite Hb1, Hb2.
    rewrite !bind_lift, Hi1, Hi2, !bind_lift, Hr1, Hr2, !bind_lift, Hn1, Hn2.
    rewrite !bind_lift, Hg1, Hg2. reflexivity.
Qed.

Lemma other_fields_ignored_witness :
  run (handleDetailsRequest (Examples.post "/api/details" Examples.paid_request))
      Examples.offline
  = run (handleDetailsRequest (Examples.post "/api/details" Examples.unpaid_request))
      Examples.offline.
Proof.
  destruct (other_fields_ignored Examples.offline
              (Examples.post "/api/details" Examples.paid_request)
              (Examples.post "/api/details" Examples.unpaid_request)
              Examples.paid_request Examples.unpaid_request
              (J (JStr "123456")) (J (JStr "1234")) (J (JStr "REG1")) Undefined
              eq_refl eq_refl) as [H _].
  apply H; repeat split; reflexivity.
Defined.

(** *** The path of a validated query *)


